(** * route53: reconciling one DNS record set against Route 53

    A shallow embedding of [plugins/modules/route53.py].  The module is a
    single sequential pipeline: resolve the hosted zone, locate the current
    record set, build the desired record set, decide the change verb, submit
    the change and optionally wait for propagation.

    Python dictionaries with a fixed vocabulary of keys are records whose
    optional keys are [option] fields ([None] = key absent).  Provider calls
    are recorded in a trace, and [exit_json] / [fail_json] / uncaught
    exceptions end the run, so [main] lives in a small trace-and-exit monad. *)

From Stdlib Require Import ZArith Sorting.Sorted.
From stdpp Require Import base decidable option list sorting strings gmap.

Local Open Scope Z_scope.

(** ** Python strings

    A [str] is modelled by [string] (its UTF-8 bytes); comparing UTF-8 byte
    sequences lexicographically agrees with comparing code points, which is
    how Python orders [str]. *)

Module PyStr.

(** [bool(s)]: a string is truthy when it is not empty. *)
Definition truthy (s : string) : bool :=
  match s with EmptyString => false | String _ _ => true end.

Definition lower_char (c : Ascii.ascii) : Ascii.ascii :=
  let n := Ascii.N_of_ascii c in
  if ((65 <=? n) && (n <=? 90))%N then Ascii.ascii_of_N (n + 32) else c.

Definition upper_char (c : Ascii.ascii) : Ascii.ascii :=
  let n := Ascii.N_of_ascii c in
  if ((97 <=? n) && (n <=? 122))%N then Ascii.ascii_of_N (n - 32) else c.

(** [s.lower()] and [s.upper()], on the ASCII letters (DNS names, states
    and verbs are ASCII). *)
Fixpoint lower (s : string) : string :=
  match s with
  | EmptyString => EmptyString
  | String c s' => String (lower_char c) (lower s')
  end.

Fixpoint upper (s : string) : string :=
  match s with
  | EmptyString => EmptyString
  | String c s' => String (upper_char c) (upper s')
  end.

(** [s[-1:]]: the last character as a string, empty for the empty string. *)
Fixpoint last1 (s : string) : string :=
  match s with
  | EmptyString => EmptyString
  | String c EmptyString => String c EmptyString
  | String _ s' => last1 s'
  end.

(** [s.replace(old, new)]: every non-overlapping occurrence of [old],
    scanning from the left.  [skip] counts the characters of a matched
    occurrence still to be dropped. *)
Fixpoint replace_from (skip : nat) (old new s : string) : string :=
  match s with
  | EmptyString => EmptyString
  | String c s' =>
      match skip with
      | S k => replace_from k old new s'
      | O =>
          if String.prefix old s
          then new +:+ replace_from (Nat.pred (String.length old)) old new s'
          else String c (replace_from O old new s')
      end
  end.

(** [old] is not empty at the module's only call site. *)
Definition replace (old new s : string) : string := replace_from O old new s.

End PyStr.

(** [x or d] for an optional string: [None] and the empty string are falsy. *)
Definition str_or (x : option string) (d : string) : string :=
  match x with
  | Some s => if PyStr.truthy s then s else d
  | None => d
  end.

(** [bool(x)] for an optional string. *)
Definition opt_truthy (x : option string) : bool :=
  match x with Some s => PyStr.truthy s | None => false end.

(** [bool(x)] for an optional boolean. *)
Definition flag (x : option bool) : bool :=
  match x with Some b => b | None => false end.

(** ** Data model *)

(** One entry of [ResourceRecords]: the dictionary [dict(Value=value)]. *)
Record ResourceRecord := { Value : string }.

Record AliasTargetT := {
  HostedZoneId : option string;
  DNSName : string;
  EvaluateTargetHealth : bool
}.

(** A resource record set as the provider returns it and as the module
    builds it: the keys the module reads or writes.  An [option] field set to
    [None] is a key that is absent from the dictionary. *)
Record RecordSet := {
  Name : string;
  Type_ : string;
  SetIdentifier : option string;
  Weight : option Z;
  Region : option string;
  Failover : option string;
  TTL : option Z;
  ResourceRecords : option (list ResourceRecord);
  HealthCheckId : option string;
  AliasTarget : option AliasTargetT
}.

Global Instance ResourceRecord_eq_dec : EqDecision ResourceRecord.
Proof. solve_decision. Defined.
Global Instance AliasTargetT_eq_dec : EqDecision AliasTargetT.
Proof. solve_decision. Defined.
Global Instance RecordSet_eq_dec : EqDecision RecordSet.
Proof. solve_decision. Defined.

(** An entry of the [list_hosted_zones] result. *)
Record HostedZone := {
  zone_Id : string;
  zone_Name : string;
  zone_PrivateZone : option bool      (* zone['Config'].get('PrivateZone') *)
}.

Record VPC := { VPCId : string }.

(** The [get_hosted_zone] response: [HostedZone.Name] and, for private zones
    only, the [VPCs] key. *)
Record HostedZoneDetail := {
  detail_Name : string;
  VPCs : option (list VPC)
}.

(** ** Module parameters (the validated [module.params]) *)

Inductive State := absent | create | delete | get | present.

Record Params := {
  state : State;
  zone : option string;
  hosted_zone_id : option string;
  record : string;
  ttl : option Z;                          (* default 3600 *)
  type : string;
  alias : option bool;
  alias_hosted_zone_id : option string;
  alias_evaluate_target_health : bool;     (* default false *)
  value : option (list string);
  overwrite : option bool;
  private_zone : bool;                     (* default false *)
  identifier : option string;
  weight : option Z;
  region : option string;
  health_check : option string;
  failover : option string;
  vpc_id : option string;
  wait : bool;                             (* default false *)
  wait_timeout : Z                         (* default 300 *)
}.

Definition MAX_AWS_RETRIES : Z := 10.
Definition WAIT_RETRY : Z := 5.

(** ** Provider and effects *)

Inductive PyExn :=
| KeyError (key : string)
| IndexError
| AttributeError
| UnboundLocalError
| ClientError (code : string)
| WaiterError.

(** What [change_resource_record_sets] does with a change batch. *)
Inductive ChangeResult :=
| ChangeAccepted (change_id : string)     (* ChangeInfo.Id *)
| ChangeAlreadyExists                     (* error message "... but it already exists" *)
| ChangeClientError (code : string).      (* any other BotoCoreError / ClientError *)

(** The Route 53 client.  Listings are the fully paginated results; the
    retry decorators are part of the calls. *)
Record Provider := {
  hosted_zones : list HostedZone;
  hosted_zone_detail : string -> option HostedZoneDetail;
  record_sets : string -> option (list RecordSet);
  submit_change : string -> string -> RecordSet -> ChangeResult;
  change_insync : string -> nat -> bool   (* does poll number k report INSYNC *)
}.

(** The calls made on the client, and the sleeps of the waiter. *)
Inductive Call :=
| CListHostedZones
| CGetHostedZone (zone_id : string)
| CListRecordSets (zone_id : string)
| CChangeRecordSets (zone_id : string) (action : string) (rrset : RecordSet)
| CGetChange (change_id : string)
| CSleep (seconds : Z).

Definition is_read (c : Call) : bool :=
  match c with
  | CListHostedZones | CGetHostedZone _ | CListRecordSets _ => true
  | _ => false
  end.

Definition is_submission (c : Call) : bool :=
  match c with CChangeRecordSets _ _ _ => true | _ => false end.

Definition is_poll (c : Call) : bool :=
  match c with CGetChange _ => true | _ => false end.

(** [diff=dict(before=..., after=...)]; [after = None] is the empty
    dictionary. *)
Record Diff := { before : option RecordSet; after : option RecordSet }.

(** The keyword arguments of [exit_json]. *)
Record ExitResult := {
  changed : bool;
  result_set : option (option RecordSet);
  nameservers : option (list string);
  diff : option Diff
}.

Inductive Outcome (A : Type) :=
| Ret (a : A)
| ExitJson (r : ExitResult)
| FailJson (msg : string)
| Raise (e : PyExn).
Arguments Ret {A} a.
Arguments ExitJson {A} r.
Arguments FailJson {A} msg.
Arguments Raise {A} e.

(** A computation extends the trace of calls and either returns or ends the
    run. *)
Definition M (A : Type) : Type := list Call -> Outcome A * list Call.

Definition ret {A} (a : A) : M A := fun tr => (Ret a, tr).

Definition bind {A B} (m : M A) (k : A -> M B) : M B :=
  fun tr =>
    match m tr with
    | (Ret a, tr') => k a tr'
    | (ExitJson r, tr') => (ExitJson r, tr')
    | (FailJson msg, tr') => (FailJson msg, tr')
    | (Raise e, tr') => (Raise e, tr')
    end.

Definition call (c : Call) : M unit := fun tr => (Ret tt, tr ++ [c]).
Definition exit_json {A} (r : ExitResult) : M A := fun tr => (ExitJson r, tr).
Definition fail_json {A} (msg : string) : M A := fun tr => (FailJson msg, tr).
Definition raise {A} (e : PyExn) : M A := fun tr => (Raise e, tr).

(** A guard that ends the run when [b] holds. *)
Definition when (b : bool) (m : M unit) : M unit := if b then m else ret tt.

Declare Scope py_scope.
Delimit Scope py_scope with py.
Notation "x <- m ;; k" := (bind m (fun x => k))
  (at level 100, m at next level, right associativity) : py_scope.
Notation "m ;;; k" := (bind m (fun _ => k))
  (at level 100, right associativity) : py_scope.
Local Open Scope py_scope.

(** An exception raised by a pure step. *)
Definition lift {A} (x : PyExn + A) : M A :=
  match x with
  | inl e => raise e
  | inr a => ret a
  end.

Definition run {A} (m : M A) : Outcome A * list Call := m [].

(** ** Record Locator: [get_record] *)

(** The two [continue] tests of the loop body, negated: does the loop return
    this record set. *)
Definition record_set_matches (record_name record_type : string)
    (record_identifier : option string) (record_set : RecordSet) : bool :=
  if negb (bool_decide ((record_name, record_type) = (Name record_set, Type_ record_set)))
  then false
  else if opt_truthy record_identifier
          && negb (bool_decide (record_identifier = SetIdentifier record_set))
  then false
  else true.

Definition get_record (route53 : Provider) (zone_id record_name record_type : string)
    (record_identifier : option string) : M (option RecordSet) :=
  call (CListRecordSets zone_id);;;
  match record_sets route53 zone_id with
  | None => raise (ClientError "NoSuchHostedZone")
  | Some record_sets_results =>
      ret (List.find (record_set_matches record_name record_type record_identifier)
             record_sets_results)
  end.

(** ** Zone Resolver: [get_zone_id_by_name] *)

Definition strip_hostedzone (id : string) : string :=
  PyStr.replace "/hostedzone/" "" id.

(** The loop over the listed zones.  [get_hosted_zone] is called only for a
    candidate whose visibility and name match, and only when a VPC id is
    wanted. *)
Fixpoint zone_loop (route53 : Provider) (zones : list HostedZone)
    (zone_name : string) (want_private : bool) (want_vpc_id : option string)
    : M (option string) :=
  match zones with
  | [] => ret None
  | zone :: rest =>
      let private_zone := default false (zone_PrivateZone zone) in
      let zone_id := strip_hostedzone (zone_Id zone) in
      if Bool.eqb private_zone want_private
         && bool_decide (zone_Name zone = zone_name)
      then
        if opt_truthy want_vpc_id then
          call (CGetHostedZone zone_id);;;
          match hosted_zone_detail route53 zone_id with
          | None => raise (ClientError "NoSuchHostedZone")
          | Some hosted_zone =>
              match VPCs hosted_zone with
              | None => raise (KeyError "VPCs")
              | Some vpcs =>
                  if bool_decide (want_vpc_id ∈ (Some ∘ VPCId) <$> vpcs)
                  then ret (Some zone_id)
                  else zone_loop route53 rest zone_name want_private want_vpc_id
              end
          end
        else ret (Some zone_id)
      else zone_loop route53 rest zone_name want_private want_vpc_id
  end.

Definition get_zone_id_by_name (route53 : Provider) (zone_name : string)
    (want_private : bool) (want_vpc_id : option string) : M (option string) :=
  call CListHostedZones;;;
  zone_loop route53 (hosted_zones route53) zone_name want_private want_vpc_id.

(** ** [get_hosted_zone_nameservers] *)

Definition get_hosted_zone_nameservers (route53 : Provider) (zone_id : string)
    : M (list string) :=
  call (CGetHostedZone zone_id);;;
  match hosted_zone_detail route53 zone_id with
  | None => raise (ClientError "NoSuchHostedZone")
  | Some hosted_zone =>
      let hosted_zone_name := detail_Name hosted_zone in
      call (CListRecordSets zone_id);;;
      match record_sets route53 zone_id with
      | None => raise (ClientError "NoSuchHostedZone")
      | Some resource_records_sets =>
          match List.filter
                  (fun record => bool_decide (Name record = hosted_zone_name)
                                 && bool_decide (Type_ record = "NS"))
                  resource_records_sets with
          | [] => raise IndexError
          | ns_set :: _ =>
              match ResourceRecords ns_set with
              | None => raise (KeyError "ResourceRecords")
              | Some nameservers_records => ret (Value <$> nameservers_records)
              end
          end
      end
  end.

(** ** The propagation waiter (botocore's [Waiter.wait])

    The waiter [resource_record_sets_changed] polls [GetChange] until the
    status is INSYNC.  Its [wait] reads the per-call [WaiterConfig] with
    [config.get('Delay', delay)] and [config.get('MaxAttempts',
    max_attempts)], the defaults being those of the waiter model: a delay of
    30 seconds and 60 attempts. *)

Definition waiter_default_delay : Z := 30.
Definition waiter_default_max_attempts : Z := 60.

(** One iteration polls, counts the attempt, returns on INSYNC, raises when
    [num_attempts >= max_attempts] and sleeps otherwise.  [k] is the number
    of polls already made, and [remaining] is [max_attempts - (k + 1)] cut
    off at zero, so that [remaining = 0] is the test
    [num_attempts >= max_attempts]. *)
Fixpoint waiter_loop (route53 : Provider) (change_id : string)
    (sleep_amount : Z) (remaining : nat) (k : nat) : M unit :=
  call (CGetChange change_id);;;
  if change_insync route53 change_id k then ret tt
  else
    match remaining with
    | O => raise WaiterError
    | S remaining' =>
        call (CSleep sleep_amount);;;
        waiter_loop route53 change_id sleep_amount remaining' (S k)
    end.

Definition waiter_wait (route53 : Provider) (change_id : string)
    (WaiterConfig : gmap string Z) : M unit :=
  let sleep_amount := default waiter_default_delay (WaiterConfig !! "Delay") in
  let max_attempts :=
    default waiter_default_max_attempts (WaiterConfig !! "MaxAttempts") in
  waiter_loop route53 change_id sleep_amount (Z.to_nat (max_attempts - 1)) O.

(** ** Desired-State Builder (lines 551-575 of [main]) *)

(** [sorted(l, key=...)]: a stable sort on the string key; an element goes
    in front of the first element whose key is not smaller. *)
Fixpoint sorted_insert {A} (key : A -> string) (x : A) (l : list A) : list A :=
  match l with
  | [] => [x]
  | y :: l' =>
      if String.leb (key x) (key y) then x :: y :: l'
      else y :: sorted_insert key x l'
  end.

Fixpoint sorted {A} (key : A -> string) (l : list A) : list A :=
  match l with
  | [] => []
  | x :: l' => sorted_insert key x (sorted key l')
  end.

Definition command_in (params : Params) : string :=
  match state params with
  | present | create => "create"
  | absent | delete => "delete"
  | get => "get"
  end.

Definition dotted (s : string) : string :=
  if bool_decide (PyStr.last1 s ≠ ".") then s +:+ "." else s.

Definition zone_in (params : Params) : string :=
  dotted (PyStr.lower (str_or (zone params) "")).

Definition record_in (params : Params) : string :=
  dotted (PyStr.lower (record params)).

Definition value_in (params : Params) : list string :=
  default [] (value params).

Definition private_zone_in (params : Params) : bool :=
  match vpc_id params with
  | Some _ => true
  | None => private_zone params
  end.

Definition set_alias (a : AliasTargetT) (r : RecordSet) : RecordSet :=
  {| Name := Name r; Type_ := Type_ r; SetIdentifier := SetIdentifier r;
     Weight := Weight r; Region := Region r; Failover := Failover r;
     TTL := None; ResourceRecords := None;
     HealthCheckId := HealthCheckId r; AliasTarget := Some a |}.

Definition set_ResourceRecords (l : list ResourceRecord) (r : RecordSet) : RecordSet :=
  {| Name := Name r; Type_ := Type_ r; SetIdentifier := SetIdentifier r;
     Weight := Weight r; Region := Region r; Failover := Failover r;
     TTL := TTL r; ResourceRecords := Some l;
     HealthCheckId := HealthCheckId r; AliasTarget := AliasTarget r |}.

(** [scrub_none_parameters] of the literal dictionary: a parameter that is
    [None] leaves no key.  [ResourceRecords] is a list and always stays. *)
Definition scrubbed_record_set (params : Params) : RecordSet :=
  {| Name := record_in params;
     Type_ := type params;
     SetIdentifier := None;
     Weight := weight params;
     Region := region params;
     Failover := failover params;
     TTL := ttl params;
     ResourceRecords := Some (Build_ResourceRecord <$> value_in params);
     HealthCheckId := health_check params;
     AliasTarget := None |}.

(** The builder does no I/O: it returns the record set, or the exception the
    Python statements raise. *)
Definition build_resource_record_set (params : Params) : PyExn + RecordSet :=
  let resource_record_set := scrubbed_record_set params in
  let aliased :=
    if flag (alias params) then
      match value_in params with
      | [] => inl IndexError                          (* value_in[0] *)
      | v0 :: _ =>
          inr (set_alias
                 {| HostedZoneId := alias_hosted_zone_id params;
                    DNSName := v0;
                    EvaluateTargetHealth := alias_evaluate_target_health params |}
                 resource_record_set)
      end
    else inr resource_record_set in
  match aliased with
  | inl e => inl e
  | inr resource_record_set =>
      (* On CAA records order doesn't matter *)
      if bool_decide (type params = "CAA") then
        match ResourceRecords resource_record_set with
        | None => inl (KeyError "ResourceRecords")
        | Some rrs =>
            inr (set_ResourceRecords (sorted Value rrs) resource_record_set)
        end
      else inr resource_record_set
  end.

(** ** [main] *)

(** Lines 526-530: the two parameter checks made for create and delete. *)
Definition check_params (params : Params) : M unit :=
  if bool_decide (command_in params = "create")
     || bool_decide (command_in params = "delete")
  then
    when (flag (alias params) && negb (length (value_in params) =? 1)%nat)
      (fail_json "parameter 'value' must contain a single dns name for alias records");;;
    when (bool_decide (weight params = None) && bool_decide (region params = None)
          && bool_decide (failover params = None)
          && negb (bool_decide (identifier params = None)))
      (fail_json "You have specified identifier which makes sense only if you specify one of: weight, region or failover.")
  else ret tt.

Definition zone_not_found_msg (params : Params) : string :=
  "Zone "
  +:+ (if PyStr.truthy (zone_in params) then zone_in params
       else default "None" (hosted_zone_id params))
  +:+ " does not exist in Route53".

(** Lines 542-547: the zone id given directly, or else found by name. *)
Definition find_zone (route53 : Provider) (params : Params) : M string :=
  zone_id <-
    (if opt_truthy (hosted_zone_id params) then ret (hosted_zone_id params)
     else get_zone_id_by_name route53 (zone_in params) (private_zone_in params)
            (vpc_id params));;
  match zone_id with
  | None => fail_json (zone_not_found_msg params)
  | Some zone_id => ret zone_id
  end.

(** Lines 526-549: everything up to and including the lookup of the current
    record set. *)
Definition locate (route53 : Provider) (params : Params)
    : M (string * option RecordSet) :=
  check_params params;;;
  zone_id <- find_zone route53 params;;
  aws_record <- get_record route53 zone_id (record_in params) (type params)
                  (identifier params);;
  ret (zone_id, aws_record).

(** [aws_record.get('values', [])]: record sets have no key ['values']
    (their values are under ['ResourceRecords']), so the default is what
    the lookup returns. *)
Definition get_values (aws_record : RecordSet) : list string := [].

Definition unchanged : ExitResult :=
  {| changed := false; result_set := None; nameservers := None; diff := None |}.

(** Lines 580-587. *)
Definition get_command (route53 : Provider) (params : Params) (zone_id : string)
    (aws_record : option RecordSet) : M unit :=
  ns <-
    (if bool_decide (type params = "NS") then
       match aws_record with
       | None => raise AttributeError          (* None.get *)
       | Some r => ret (get_values r)
       end
     else get_hosted_zone_nameservers route53 zone_id);;
  exit_json {| changed := false; result_set := Some aws_record;
               nameservers := Some ns; diff := None |}.

(** Lines 592-598: the change verb. *)
Definition choose_command (params : Params) (aws_record : option RecordSet)
    : M string :=
  if bool_decide (command_in params = "create")
     || bool_decide (command_in params = "delete")
  then
    if bool_decide (command_in params = "create") && bool_decide (aws_record ≠ None)
    then
      when (negb (flag (overwrite params)))
        (fail_json "Record already exists with different value. Set 'overwrite' to replace it");;;
      ret "UPSERT"
    else ret (PyStr.upper (command_in params))
  else raise UnboundLocalError.

(** What the run has fixed when it reaches line 600. *)
Record Plan := {
  plan_zone_id : string;
  plan_aws_record : option RecordSet;
  plan_record_set : RecordSet;
  plan_command : string
}.

(** Lines 526-598. *)
Definition plan (route53 : Provider) (params : Params) : M Plan :=
  located <- locate route53 params;;
  let zone_id := located.1 in
  let aws_record := located.2 in
  resource_record_set <- lift (build_resource_record_set params);;
  when (bool_decide (command_in params = "create")
        && bool_decide (aws_record = Some resource_record_set))
    (exit_json unchanged);;;
  when (bool_decide (command_in params = "get"))
    (get_command route53 params zone_id aws_record);;;
  when (bool_decide (command_in params = "delete") && bool_decide (aws_record = None))
    (exit_json unchanged);;;
  command <- choose_command params aws_record;;
  ret {| plan_zone_id := zone_id; plan_aws_record := aws_record;
         plan_record_set := resource_record_set; plan_command := command |}.

(** The [WaiterConfig] dictionary of line 619. *)
Definition waiter_config (params : Params) : gmap string Z :=
  {[ "Delay" := WAIT_RETRY;
     "MaxAttemps" := wait_timeout params `div` WAIT_RETRY ]}.

(** Lines 601-631: the submission and the optional wait, with the handlers
    of the [try] statement. *)
Definition submit (route53 : Provider) (params : Params) (zone_id command : string)
    (resource_record_set : RecordSet) : M unit :=
  call (CChangeRecordSets zone_id command resource_record_set);;;
  match submit_change route53 zone_id command resource_record_set with
  | ChangeAccepted change_id =>
      if wait params then
        fun tr =>
          match waiter_wait route53 change_id (waiter_config params) tr with
          | (Raise WaiterError, tr') =>
              (FailJson "Timeout waiting for resource records changes to be applied", tr')
          | (Raise _, tr') => (FailJson "Failed to update records", tr')
          | other => other
          end
      else ret tt
  | ChangeAlreadyExists => exit_json unchanged
  | ChangeClientError _ => fail_json "Failed to update records"
  end.

Definition diff_after (command : string) (resource_record_set : RecordSet)
    : option RecordSet :=
  if bool_decide (command ≠ "delete") then Some resource_record_set else None.

(** Lines 600-639. *)
Definition execute (route53 : Provider) (check_mode : bool) (params : Params)
    (pl : Plan) : M unit :=
  when (negb check_mode)
    (submit route53 params (plan_zone_id pl) (plan_command pl) (plan_record_set pl));;;
  exit_json {| changed := true; result_set := None; nameservers := None;
               diff := Some {| before := plan_aws_record pl;
                               after := diff_after (plan_command pl)
                                          (plan_record_set pl) |} |}.

Definition main (route53 : Provider) (check_mode : bool) (params : Params) : M unit :=
  pl <- plan route53 params;;
  execute route53 check_mode params pl.

(** * Vocabulary of the properties *)

(** [adds P m]: whatever [m] does, it only appends calls that satisfy [P] to
    the trace. *)
Definition adds {A} (P : Call -> bool) (m : M A) : Prop :=
  forall tr, exists ext, (m tr).2 = tr ++ ext /\ Forall (fun c => P c = true) ext.

(** No change submission and no poll. *)
Definition no_submission (tr : list Call) : Prop :=
  Forall (fun c => is_submission c = false /\ is_poll c = false) tr.

(** A poll or a sleep of the waiter. *)
Definition is_wait (c : Call) : bool :=
  match c with
  | CGetChange _ | CSleep _ => true
  | _ => false
  end.

(** The result of line 633. *)
Definition changed_result (pl : Plan) : ExitResult :=
  {| changed := true; result_set := None; nameservers := None;
     diff := Some {| before := plan_aws_record pl;
                     after := diff_after (plan_command pl) (plan_record_set pl) |} |}.

Definition conflict_msg : string :=
  "Record already exists with different value. Set 'overwrite' to replace it".

(** Line 414: visibility and name of a listed zone match the request. *)
Definition is_candidate (zone_name : string) (want_private : bool)
    (zone : HostedZone) : bool :=
  Bool.eqb (default false (zone_PrivateZone zone)) want_private
  && bool_decide (zone_Name zone = zone_name).

(** The [get_hosted_zone] calls for all candidates, in listing order. *)
Definition detail_calls (zone_name : string) (want_private : bool)
    (zones : list HostedZone) : list Call :=
  (fun zone => CGetHostedZone (strip_hostedzone (zone_Id zone)))
    <$> List.filter (is_candidate zone_name want_private) zones.

(** The order of [sorted]: by key. *)
Definition key_le {A} (key : A -> string) (x y : A) : Prop :=
  String.le (key x) (key y).

(** The request with another value list. *)
Definition with_value (vs : list string) (params : Params) : Params :=
  {| state := state params; zone := zone params;
     hosted_zone_id := hosted_zone_id params; record := record params;
     ttl := ttl params; type := type params; alias := alias params;
     alias_hosted_zone_id := alias_hosted_zone_id params;
     alias_evaluate_target_health := alias_evaluate_target_health params;
     value := Some vs; overwrite := overwrite params;
     private_zone := private_zone params; identifier := identifier params;
     weight := weight params; region := region params;
     health_check := health_check params; failover := failover params;
     vpc_id := vpc_id params; wait := wait params;
     wait_timeout := wait_timeout params |}.

(** The number of polls and the seconds slept in a trace. *)
Definition polls (tr : list Call) : nat :=
  length (List.filter is_poll tr).

Definition slept (tr : list Call) : Z :=
  foldr (fun c acc => match c with CSleep seconds => seconds + acc | _ => acc end) 0 tr.

(** What a waiter that never sees INSYNC does: a poll, then [remaining]
    times a sleep and a poll. *)
Definition never_insync_calls (change_id : string) (sleep_amount : Z)
    (remaining : nat) : list Call :=
  CGetChange change_id
  :: concat (replicate remaining [CSleep sleep_amount; CGetChange change_id]).

Definition timeout_msg : string :=
  "Timeout waiting for resource records changes to be applied".

(** * Sample data: the zone foo.com, public and private *)

Definition zone_foo_public : HostedZone :=
  {| zone_Id := "/hostedzone/ZPUBLIC"; zone_Name := "foo.com.";
     zone_PrivateZone := Some false |}.

Definition zone_foo_private : HostedZone :=
  {| zone_Id := "/hostedzone/ZPRIVATE"; zone_Name := "foo.com.";
     zone_PrivateZone := Some true |}.

Definition plain_record_set (name type : string) (ttl : Z) (values : list string)
    : RecordSet :=
  {| Name := name; Type_ := type; SetIdentifier := None; Weight := None;
     Region := None; Failover := None; TTL := Some ttl;
     ResourceRecords := Some (Build_ResourceRecord <$> values);
     HealthCheckId := None; AliasTarget := None |}.

Definition rs_apex_ns : RecordSet :=
  plain_record_set "foo.com." "NS" 172800
    ["ns-1.awsdns-00.com."; "ns-516.awsdns-00.net."].

Definition rs_new_foo : RecordSet :=
  plain_record_set "new.foo.com." "A" 7200 ["1.1.1.1"; "2.2.2.2"; "3.3.3.3"].

Definition rs_caa : RecordSet :=
  plain_record_set "caa.foo.com." "CAA" 3600
    ["0 issue 'ca.example.net'"; "0 issuewild ';'"].

(** A weighted record set: it carries a routing identifier. *)
Definition rs_www_blue : RecordSet :=
  {| Name := "www.foo.com."; Type_ := "A"; SetIdentifier := Some "blue";
     Weight := Some 10; Region := None; Failover := None; TTL := Some 300;
     ResourceRecords := Some [ {| Value := "10.0.0.1" |} ];
     HealthCheckId := None; AliasTarget := None |}.

(** The provider: both zones hold the same record sets, the private zone is
    associated with vpc-1, every change is accepted and never reported
    INSYNC. *)
Definition r53_foo : Provider :=
  {| hosted_zones := [zone_foo_public; zone_foo_private];
     hosted_zone_detail := fun zone_id =>
       if bool_decide (zone_id = "ZPUBLIC")
       then Some {| detail_Name := "foo.com."; VPCs := None |}
       else if bool_decide (zone_id = "ZPRIVATE")
       then Some {| detail_Name := "foo.com."; VPCs := Some [ {| VPCId := "vpc-1" |} ] |}
       else None;
     record_sets := fun zone_id =>
       if bool_decide (zone_id = "ZPUBLIC") || bool_decide (zone_id = "ZPRIVATE")
       then Some [rs_apex_ns; rs_new_foo; rs_caa; rs_www_blue]
       else None;
     submit_change := fun _ _ _ => ChangeAccepted "/change/C1";
     change_insync := fun _ _ => false |}.

(** A request on zone foo.com with the defaults of the argument spec. *)
Definition request (st : State) (name type : string) (values : list string)
    : Params :=
  {| state := st; zone := Some "foo.com"; hosted_zone_id := None;
     record := name; ttl := Some 3600; type := type; alias := None;
     alias_hosted_zone_id := None; alias_evaluate_target_health := false;
     value := Some values; overwrite := None; private_zone := false;
     identifier := None; weight := None; region := None; health_check := None;
     failover := None; vpc_id := None; wait := false; wait_timeout := 300 |}.

Definition with_ttl (t : Z) (params : Params) : Params :=
  {| state := state params; zone := zone params;
     hosted_zone_id := hosted_zone_id params; record := record params;
     ttl := Some t; type := type params; alias := alias params;
     alias_hosted_zone_id := alias_hosted_zone_id params;
     alias_evaluate_target_health := alias_evaluate_target_health params;
     value := value params; overwrite := overwrite params;
     private_zone := private_zone params; identifier := identifier params;
     weight := weight params; region := region params;
     health_check := health_check params; failover := failover params;
     vpc_id := vpc_id params; wait := wait params;
     wait_timeout := wait_timeout params |}.

Definition with_overwrite (params : Params) : Params :=
  {| state := state params; zone := zone params;
     hosted_zone_id := hosted_zone_id params; record := record params;
     ttl := ttl params; type := type params; alias := alias params;
     alias_hosted_zone_id := alias_hosted_zone_id params;
     alias_evaluate_target_health := alias_evaluate_target_health params;
     value := value params; overwrite := Some true;
     private_zone := private_zone params; identifier := identifier params;
     weight := weight params; region := region params;
     health_check := health_check params; failover := failover params;
     vpc_id := vpc_id params; wait := wait params;
     wait_timeout := wait_timeout params |}.

Definition with_vpc_id (v : string) (params : Params) : Params :=
  {| state := state params; zone := zone params;
     hosted_zone_id := hosted_zone_id params; record := record params;
     ttl := ttl params; type := type params; alias := alias params;
     alias_hosted_zone_id := alias_hosted_zone_id params;
     alias_evaluate_target_health := alias_evaluate_target_health params;
     value := value params; overwrite := overwrite params;
     private_zone := private_zone params; identifier := identifier params;
     weight := weight params; region := region params;
     health_check := health_check params; failover := failover params;
     vpc_id := Some v; wait := wait params;
     wait_timeout := wait_timeout params |}.

Definition with_wait (timeout : Z) (params : Params) : Params :=
  {| state := state params; zone := zone params;
     hosted_zone_id := hosted_zone_id params; record := record params;
     ttl := ttl params; type := type params; alias := alias params;
     alias_hosted_zone_id := alias_hosted_zone_id params;
     alias_evaluate_target_health := alias_evaluate_target_health params;
     value := value params; overwrite := overwrite params;
     private_zone := private_zone params; identifier := identifier params;
     weight := weight params; region := region params;
     health_check := health_check params; failover := failover params;
     vpc_id := vpc_id params; wait := true;
     wait_timeout := timeout |}.

Definition with_alias (target_zone : string) (params : Params) : Params :=
  {| state := state params; zone := zone params;
     hosted_zone_id := hosted_zone_id params; record := record params;
     ttl := None; type := type params; alias := Some true;
     alias_hosted_zone_id := Some target_zone;
     alias_evaluate_target_health := alias_evaluate_target_health params;
     value := value params; overwrite := overwrite params;
     private_zone := private_zone params; identifier := identifier params;
     weight := weight params; region := region params;
     health_check := health_check params; failover := failover params;
     vpc_id := vpc_id params; wait := wait params;
     wait_timeout := wait_timeout params |}.

(** The new.foo.com scenario: A, ttl 7200, three addresses. *)
Definition req_new_foo : Params :=
  with_ttl 7200 (request present "New.Foo.com" "A" ["1.1.1.1"; "2.2.2.2"; "3.3.3.3"]).

(** The same record with one other address. *)
Definition req_new_foo_changed : Params :=
  with_ttl 7200 (request present "new.foo.com" "A" ["1.1.1.1"; "2.2.2.2"; "9.9.9.9"]).

(** The CAA record, its values in reverse order. *)
Definition req_caa_reversed : Params :=
  request present "caa.foo.com" "CAA" ["0 issuewild ';'"; "0 issue 'ca.example.net'"].

(** A record that is not in the zone, created with wait and a timeout of
    10 seconds. *)
Definition req_wait_10 : Params :=
  with_wait 10 (request present "other.foo.com" "A" ["4.4.4.4"]).

(** state=get of an NS record set that is not in the zone. *)
Definition req_get_ns_missing : Params :=
  {| state := get; zone := Some "foo.com"; hosted_zone_id := None;
     record := "sub.foo.com"; ttl := Some 3600; type := "NS"; alias := None;
     alias_hosted_zone_id := None; alias_evaluate_target_health := false;
     value := None; overwrite := None; private_zone := false;
     identifier := None; weight := None; region := None; health_check := None;
     failover := None; vpc_id := None; wait := false; wait_timeout := 300 |}.

(** The plan of the remove of new.foo.com with one address. *)
Definition plan_remove_new_foo : Plan :=
  {| plan_zone_id := "ZPUBLIC"; plan_aws_record := Some rs_new_foo;
     plan_record_set := plain_record_set "new.foo.com." "A" 3600 ["1.1.1.1"];
     plan_command := "DELETE" |}.

(** * Further vocabulary and sample data *)


(** What a waiter does that sees INSYNC at its poll number [n] (counted
    from 0) and not before: [n] times a poll and a sleep, then the last
    poll. *)
Definition sync_calls (change_id : string) (sleep_amount : Z) (n : nat)
    : list Call :=
  concat (replicate n [CGetChange change_id; CSleep sleep_amount])
  ++ [CGetChange change_id].

(** The change call of a plan. *)
Definition change_call (pl : Plan) : Call :=
  CChangeRecordSets (plan_zone_id pl) (plan_command pl) (plan_record_set pl).

(** The sample provider with another answer to a change and another
    propagation report. *)
Definition r53_answering (answer : ChangeResult) (insync : nat -> bool) : Provider :=
  {| hosted_zones := hosted_zones r53_foo;
     hosted_zone_detail := hosted_zone_detail r53_foo;
     record_sets := record_sets r53_foo;
     submit_change := fun _ _ _ => answer;
     change_insync := fun _ k => insync k |}.

(** A record set that the zone does not hold. *)
Definition req_other : Params :=
  request present "other.foo.com" "A" ["4.4.4.4"].

Definition rs_other : RecordSet :=
  plain_record_set "other.foo.com." "A" 3600 ["4.4.4.4"].

Definition with_identifier (i : string) (w : Z) (params : Params) : Params :=
  {| state := state params; zone := zone params;
     hosted_zone_id := hosted_zone_id params; record := record params;
     ttl := ttl params; type := type params; alias := alias params;
     alias_hosted_zone_id := alias_hosted_zone_id params;
     alias_evaluate_target_health := alias_evaluate_target_health params;
     value := value params; overwrite := overwrite params;
     private_zone := private_zone params; identifier := Some i;
     weight := Some w; region := region params;
     health_check := health_check params; failover := failover params;
     vpc_id := vpc_id params; wait := wait params;
     wait_timeout := wait_timeout params |}.

Definition with_hosted_zone_id (id : string) (params : Params) : Params :=
  {| state := state params; zone := None;
     hosted_zone_id := Some id; record := record params;
     ttl := ttl params; type := type params; alias := alias params;
     alias_hosted_zone_id := alias_hosted_zone_id params;
     alias_evaluate_target_health := alias_evaluate_target_health params;
     value := value params; overwrite := overwrite params;
     private_zone := private_zone params; identifier := identifier params;
     weight := weight params; region := region params;
     health_check := health_check params; failover := failover params;
     vpc_id := vpc_id params; wait := wait params;
     wait_timeout := wait_timeout params |}.

(** The string holds no slash. *)
Fixpoint no_slash (s : string) : bool :=
  match s with
  | EmptyString => true
  | String c s' => negb (String.eqb (String c EmptyString) "/") && no_slash s'
  end.

(** The request with another record name. *)
Definition with_record (name : string) (params : Params) : Params :=
  {| state := state params; zone := zone params;
     hosted_zone_id := hosted_zone_id params; record := name;
     ttl := ttl params; type := type params; alias := alias params;
     alias_hosted_zone_id := alias_hosted_zone_id params;
     alias_evaluate_target_health := alias_evaluate_target_health params;
     value := value params; overwrite := overwrite params;
     private_zone := private_zone params; identifier := identifier params;
     weight := weight params; region := region params;
     health_check := health_check params; failover := failover params;
     vpc_id := vpc_id params; wait := wait params;
     wait_timeout := wait_timeout params |}.

(** The plan of the creation of other.foo.com. *)
Definition plan_create_other : Plan :=
  {| plan_zone_id := "ZPUBLIC"; plan_aws_record := None;
     plan_record_set := rs_other; plan_command := "CREATE" |}.

(** A propagation report that turns to INSYNC at poll number [n]. *)
Definition insync_from (n : nat) (k : nat) : bool := (n <=? k)%nat.

(** The weighted record set www.foo.com as a request, and what the builder
    makes of it. *)
Definition req_www_blue : Params :=
  with_identifier "blue" 10
    (with_ttl 300 (request present "www.foo.com" "A" ["10.0.0.1"])).

Definition built_www_blue : RecordSet :=
  {| Name := "www.foo.com."; Type_ := "A"; SetIdentifier := None;
     Weight := Some 10; Region := None; Failover := None; TTL := Some 300;
     ResourceRecords := Some [ {| Value := "10.0.0.1" |} ];
     HealthCheckId := None; AliasTarget := None |}.

(** A request that names an identifier and no routing policy. *)
Definition req_identifier_only : Params :=
  {| state := present; zone := Some "foo.com"; hosted_zone_id := None;
     record := "www.foo.com"; ttl := Some 300; type := "A"; alias := None;
     alias_hosted_zone_id := None; alias_evaluate_target_health := false;
     value := Some ["10.0.0.1"]; overwrite := None; private_zone := false;
     identifier := Some "blue"; weight := None; region := None;
     health_check := None; failover := None; vpc_id := None; wait := false;
     wait_timeout := 300 |}.

(** * Properties *)

Section Adds.
Context {A B : Type} (P : Call -> bool).

Lemma adds_ret (a : A) : adds P (ret a).
Proof. intros tr. exists []. by rewrite app_nil_r. Qed.

Lemma adds_exit_json (r : ExitResult) : adds P (exit_json (A:=A) r).
Proof. intros tr. exists []. by rewrite app_nil_r. Qed.

Lemma adds_fail_json (msg : string) : adds P (fail_json (A:=A) msg).
Proof. intros tr. exists []. by rewrite app_nil_r. Qed.

Lemma adds_raise (e : PyExn) : adds P (raise (A:=A) e).
Proof. intros tr. exists []. by rewrite app_nil_r. Qed.

Lemma adds_lift (x : PyExn + A) : adds P (lift x).
Proof. destruct x; [apply adds_raise | apply adds_ret]. Qed.

Lemma adds_call (c : Call) : P c = true -> adds P (call c).
Proof. intros Hc tr. exists [c]. split; [done | by constructor]. Qed.

Lemma adds_bind (m : M A) (k : A -> M B) :
  adds P m -> (forall a, adds P (k a)) -> adds P (bind m k).
Proof.
  intros Hm Hk tr. unfold bind.
  destruct (Hm tr) as (ext & Htr & Hext).
  destruct (m tr) as [[a | r | msg | e] tr'] eqn:E; simpl in Htr; subst tr';
    try (exists ext; by split).
  destruct (Hk a (tr ++ ext)) as (ext' & Htr' & Hext').
  exists (ext ++ ext'). rewrite Htr', app_assoc. split; [done |].
  by apply Forall_app.
Qed.
End Adds.

Lemma adds_when (P : Call -> bool) (b : bool) (m : M unit) :
  adds P m -> adds P (when b m).
Proof. destruct b; [done | intros _; apply adds_ret]. Qed.

Lemma adds_weaken {A} (P Q : Call -> bool) (m : M A) :
  (forall c, P c = true -> Q c = true) -> adds P m -> adds Q m.
Proof.
  intros HPQ Hm tr. destruct (Hm tr) as (ext & ? & Hext).
  exists ext. split; [done |]. eapply Forall_impl; eauto.
Qed.

Lemma adds_run {A} (P : Call -> bool) (m : M A) o tr :
  adds P m -> run m = (o, tr) -> Forall (fun c => P c = true) tr.
Proof.
  intros Hm Hrun. destruct (Hm []) as (ext & Htr & Hext).
  unfold run in Hrun. rewrite Hrun in Htr. simpl in Htr. by subst.
Qed.

Create HintDb adds discriminated.
#[global] Hint Resolve adds_ret adds_exit_json adds_fail_json adds_raise
  adds_lift adds_when : adds.

Ltac solve_adds :=
  repeat first
    [ apply adds_bind; [| intros ?]
    | apply adds_call; reflexivity
    | progress eauto with adds
    | match goal with
      | |- adds _ (if ?b then _ else _) => destruct b
      | |- adds _ (match ?x with _ => _ end) => destruct x
      end ].

(** The steps of [bind] on a known first computation. *)
Lemma bind_ret {A B} (m : M A) (k : A -> M B) tr a tr' :
  m tr = (Ret a, tr') -> bind m k tr = k a tr'.
Proof. unfold bind. by intros ->. Qed.

Lemma bind_exit {A B} (m : M A) (k : A -> M B) tr r tr' :
  m tr = (ExitJson r, tr') -> bind m k tr = (ExitJson r, tr').
Proof. unfold bind. by intros ->. Qed.

Lemma bind_fail {A B} (m : M A) (k : A -> M B) tr msg tr' :
  m tr = (FailJson msg, tr') -> bind m k tr = (FailJson msg, tr').
Proof. unfold bind. by intros ->. Qed.

Lemma bind_raise {A B} (m : M A) (k : A -> M B) tr e tr' :
  m tr = (Raise e, tr') -> bind m k tr = (Raise e, tr').
Proof. unfold bind. by intros ->. Qed.

(** ** The read-only stages *)

Lemma adds_get_record route53 zone_id record_name record_type record_identifier :
  adds is_read (get_record route53 zone_id record_name record_type record_identifier).
Proof. unfold get_record. solve_adds. Qed.

Lemma adds_zone_loop route53 zones zone_name want_private want_vpc_id :
  adds is_read (zone_loop route53 zones zone_name want_private want_vpc_id).
Proof. induction zones as [| zone rest IH]; simpl; solve_adds. Qed.

Lemma adds_get_zone_id_by_name route53 zone_name want_private want_vpc_id :
  adds is_read (get_zone_id_by_name route53 zone_name want_private want_vpc_id).
Proof.
  unfold get_zone_id_by_name. apply adds_bind; [solve_adds |].
  intros _. apply adds_zone_loop.
Qed.

Lemma adds_get_hosted_zone_nameservers route53 zone_id :
  adds is_read (get_hosted_zone_nameservers route53 zone_id).
Proof. unfold get_hosted_zone_nameservers. solve_adds. Qed.

Lemma adds_check_params params : adds is_read (check_params params).
Proof. unfold check_params. solve_adds. Qed.

Lemma adds_find_zone route53 params : adds is_read (find_zone route53 params).
Proof.
  unfold find_zone. apply adds_bind.
  - destruct (opt_truthy _); [solve_adds | apply adds_get_zone_id_by_name].
  - intros [z |]; solve_adds.
Qed.

Lemma adds_locate route53 params : adds is_read (locate route53 params).
Proof.
  unfold locate. apply adds_bind; [apply adds_check_params | intros _].
  apply adds_bind; [apply adds_find_zone | intros zone_id].
  apply adds_bind; [apply adds_get_record | intros aws_record]. solve_adds.
Qed.

Lemma adds_plan route53 params : adds is_read (plan route53 params).
Proof.
  unfold plan. apply adds_bind; [apply adds_locate | intros located].
  apply adds_bind; [solve_adds | intros rrs].
  apply adds_bind; [solve_adds | intros _].
  apply adds_bind.
  { apply adds_when. unfold get_command. apply adds_bind; [| solve_adds].
    destruct (bool_decide _); [solve_adds | apply adds_get_hosted_zone_nameservers]. }
  intros _. apply adds_bind; [solve_adds | intros _].
  apply adds_bind; [unfold choose_command; solve_adds | intros command].
  solve_adds.
Qed.

(** ** Reconciliation: the no-op of an apply on an equal record set *)

Lemma reads_no_submission tr :
  Forall (fun c => is_read c = true) tr -> no_submission tr.
Proof. intros H. eapply Forall_impl; [exact H |]. by intros []. Qed.

(** The run stops at line 578 when the located record set is the built one. *)
Lemma plan_equal_exits route53 params zone_id d tr :
  command_in params = "create" ->
  run (locate route53 params) = (Ret (zone_id, Some d), tr) ->
  build_resource_record_set params = inr d ->
  run (plan route53 params) = (ExitJson unchanged, tr).
Proof.
  intros Hcmd Hloc Hbuild. unfold run, plan in *.
  rewrite (bind_ret _ _ _ _ _ Hloc). simpl. rewrite Hbuild. simpl.
  unfold bind at 1. simpl. rewrite Hcmd.
  rewrite bool_decide_true by done. by rewrite bool_decide_true.
Qed.

Lemma main_equal_exits route53 check_mode params zone_id d tr :
  command_in params = "create" ->
  run (locate route53 params) = (Ret (zone_id, Some d), tr) ->
  build_resource_record_set params = inr d ->
  run (main route53 check_mode params) = (ExitJson unchanged, tr)
  /\ no_submission tr.
Proof.
  intros Hcmd Hloc Hbuild. split.
  - unfold run, main. eapply bind_exit.
    by apply (plan_equal_exits route53 params zone_id d tr).
  - apply reads_no_submission. eapply adds_run; [apply adds_locate | done].
Qed.

(** C1: for every request with state present or create whose desired record
    set builds to [d], if the record set located in the zone is equal to [d]
    then the module exits with changed=false, and the trace of the run holds
    no change submission (and no poll): only the read calls of the lookup. *)
Theorem apply_equal_is_noop route53 check_mode params zone_id d aws_record tr :
  state params = present \/ state params = create ->
  build_resource_record_set params = inr d ->
  run (locate route53 params) = (Ret (zone_id, Some aws_record), tr) ->
  aws_record = d ->
  run (main route53 check_mode params) = (ExitJson unchanged, tr)
  /\ changed unchanged = false
  /\ no_submission tr.
Proof.
  intros Hstate Hbuild Hloc ->.
  assert (command_in params = "create") as Hcmd.
  { unfold command_in. by destruct Hstate as [-> | ->]. }
  destruct (main_equal_exits route53 check_mode params zone_id d tr) as [? ?]; auto.
Qed.

(** ** The change executor and the waiter *)

(** The waiter only polls and sleeps, and it ends: with INSYNC or with
    [WaiterError]. *)
Lemma waiter_loop_cases route53 change_id sleep_amount remaining k tr :
  exists o ext,
    waiter_loop route53 change_id sleep_amount remaining k tr = (o, tr ++ ext)
    /\ Forall (fun c => is_wait c = true) ext
    /\ (o = Ret tt \/ o = Raise WaiterError).
Proof.
  revert k tr. induction remaining as [| remaining IH]; intros k tr; simpl;
    unfold bind, call; simpl.
  - destruct (change_insync route53 change_id k).
    + exists (Ret tt), [CGetChange change_id]. repeat split; auto.
    + exists (Raise WaiterError), [CGetChange change_id]. repeat split; auto.
  - destruct (change_insync route53 change_id k).
    + exists (Ret tt), [CGetChange change_id]. repeat split; auto.
    + destruct (IH (S k) ((tr ++ [CGetChange change_id]) ++ [CSleep sleep_amount]))
        as (o & ext & -> & Hext & Ho).
      exists o, (CGetChange change_id :: CSleep sleep_amount :: ext).
      split; [| split; [| done]].
      * f_equal. by rewrite <- !app_assoc.
      * by repeat constructor.
Qed.

(** A submission appends the change call followed by polls and sleeps only,
    and it returns, exits unchanged or fails. *)
Lemma submit_cases route53 params zone_id command rrs tr :
  exists o waits,
    submit route53 params zone_id command rrs tr
    = (o, tr ++ CChangeRecordSets zone_id command rrs :: waits)
    /\ Forall (fun c => is_wait c = true) waits
    /\ (o = Ret tt \/ o = ExitJson unchanged \/ exists msg, o = FailJson msg).
Proof.
  unfold submit, bind, call. simpl.
  destruct (submit_change route53 zone_id command rrs) as [change_id | | code].
  - destruct (wait params).
    + unfold waiter_wait.
      destruct (waiter_loop_cases route53 change_id
                  (default waiter_default_delay (waiter_config params !! "Delay"))
                  (Z.to_nat
                     (default waiter_default_max_attempts
                        (waiter_config params !! "MaxAttempts") - 1))
                  O (tr ++ [CChangeRecordSets zone_id command rrs]))
        as (o & ext & -> & Hext & [-> | ->]).
      * exists (Ret tt), ext. rewrite <- app_assoc. auto.
      * eexists _, ext. rewrite <- app_assoc. split; [done |]. split; eauto.
    + exists (Ret tt), []. auto.
  - exists (ExitJson unchanged), []. auto.
  - eexists _, []. split; [done |]. split; eauto.
Qed.

(** What [main] does once the plan is fixed. *)
Lemma main_of_plan route53 check_mode params pl tr :
  run (plan route53 params) = (Ret pl, tr) ->
  run (main route53 check_mode params) = execute route53 check_mode params pl tr.
Proof. intros Hplan. unfold run, main in *. by apply bind_ret. Qed.

Lemma execute_check_mode route53 params pl tr :
  execute route53 true params pl tr = (ExitJson (changed_result pl), tr).
Proof. reflexivity. Qed.

Lemma execute_real route53 params pl tr :
  exists o waits,
    execute route53 false params pl tr
    = (o, tr ++ CChangeRecordSets (plan_zone_id pl) (plan_command pl)
                  (plan_record_set pl) :: waits)
    /\ Forall (fun c => is_wait c = true) waits
    /\ (o = ExitJson (changed_result pl) \/ o = ExitJson unchanged
        \/ exists msg, o = FailJson msg).
Proof.
  unfold execute, when. simpl.
  destruct (submit_cases route53 params (plan_zone_id pl) (plan_command pl)
              (plan_record_set pl) tr) as (o & waits & Hs & Hwaits & Ho).
  unfold bind. rewrite Hs.
  destruct Ho as [-> | [-> | [msg ->]]]; eexists _, waits; (split; [done |]); eauto 6.
Qed.

(** The plan of an apply on a record set that differs (lines 592-598). *)
Lemma plan_differs route53 params zone_id d aws_record tr :
  command_in params = "create" ->
  build_resource_record_set params = inr d ->
  run (locate route53 params) = (Ret (zone_id, Some aws_record), tr) ->
  aws_record <> d ->
  run (plan route53 params)
  = if flag (overwrite params)
    then (Ret {| plan_zone_id := zone_id; plan_aws_record := Some aws_record;
                 plan_record_set := d; plan_command := "UPSERT" |}, tr)
    else (FailJson "Record already exists with different value. Set 'overwrite' to replace it", tr).
Proof.
  intros Hcmd Hbuild Hloc Hne. unfold run, plan in *.
  rewrite (bind_ret _ _ _ _ _ Hloc). simpl. rewrite Hbuild. simpl.
  unfold bind at 1. simpl. rewrite Hcmd.
  rewrite (bool_decide_false (Some aws_record = Some d)) by congruence.
  rewrite andb_false_r. simpl.
  unfold choose_command, bind. simpl. rewrite Hcmd. simpl.
  by destruct (flag (overwrite params)).
Qed.

(** C2: for every request with state present or create, when a record set
    with the requested identity is located and it differs from the built
    record set [d]: without overwrite the run fails with the conflict
    message and its trace holds no submission; with overwrite the verb is
    UPSERT, and a run outside check mode appends to the lookup calls exactly
    one submission, [UPSERT] of [d] in the resolved zone, followed by polls
    and sleeps only (check mode appends nothing). *)
Theorem apply_differs_conflict_or_upsert route53 check_mode params zone_id d
    aws_record tr :
  state params = present \/ state params = create ->
  build_resource_record_set params = inr d ->
  run (locate route53 params) = (Ret (zone_id, Some aws_record), tr) ->
  aws_record <> d ->
  no_submission tr
  /\ (flag (overwrite params) = false ->
      run (main route53 check_mode params) = (FailJson conflict_msg, tr))
  /\ (flag (overwrite params) = true ->
      exists pl, run (plan route53 params) = (Ret pl, tr)
        /\ plan_command pl = "UPSERT"
        /\ exists o ext, run (main route53 check_mode params) = (o, tr ++ ext)
             /\ if check_mode then ext = []
                else exists waits,
                    ext = CChangeRecordSets zone_id "UPSERT" d :: waits
                    /\ Forall (fun c => is_wait c = true) waits).
Proof.
  intros Hstate Hbuild Hloc Hne.
  assert (command_in params = "create") as Hcmd.
  { unfold command_in. by destruct Hstate as [-> | ->]. }
  pose proof (plan_differs route53 params zone_id d aws_record tr
                Hcmd Hbuild Hloc Hne) as Hplan.
  split; [| split].
  - apply reads_no_submission. eapply adds_run; [apply adds_locate | done].
  - intros Hov. rewrite Hov in Hplan. unfold run, main in *.
    by apply bind_fail.
  - intros Hov. rewrite Hov in Hplan. eexists. split; [exact Hplan |].
    split; [done |]. rewrite (main_of_plan _ _ _ _ _ Hplan).
    destruct check_mode.
    + exists (ExitJson (changed_result
                {| plan_zone_id := zone_id; plan_aws_record := Some aws_record;
                   plan_record_set := d; plan_command := "UPSERT" |})), [].
      by rewrite app_nil_r.
    + destruct (execute_real route53 params
                  {| plan_zone_id := zone_id; plan_aws_record := Some aws_record;
                     plan_record_set := d; plan_command := "UPSERT" |} tr)
        as (o & waits & -> & Hwaits & _).
      simpl. eauto 6.
Qed.

(** C10: for every run whose plan reaches line 600 (so the request is an
    apply or a remove), the check-mode run makes no call beyond the reads of
    the plan (no submission, no poll), exits with changed=true and the
    before/after diff, and that result is the one every real run reports
    when it reports a change. *)
Theorem check_mode_submits_nothing route53 params pl tr :
  run (plan route53 params) = (Ret pl, tr) ->
  (command_in params = "create" \/ command_in params = "delete")
  /\ run (main route53 true params) = (ExitJson (changed_result pl), tr)
  /\ Forall (fun c => is_read c = true) tr
  /\ no_submission tr
  /\ changed (changed_result pl) = true
  /\ (forall r tr', run (main route53 false params) = (ExitJson r, tr') ->
        changed r = true -> r = changed_result pl).
Proof.
  intros Hplan.
  assert (Forall (fun c => is_read c = true) tr) as Hreads.
  { eapply adds_run; [apply adds_plan | done]. }
  split; [| split; [| split; [| split; [| split]]]]; auto.
  - unfold run, plan in Hplan. unfold command_in. destruct (state params) eqn:Hst; auto.
    exfalso. revert Hplan. unfold bind.
    destruct (locate route53 params []) as [[[z cur] | | |] tr0]; try done. simpl.
    destruct (build_resource_record_set params) as [e | rrs]; simpl; [done |].
    unfold command_in. rewrite Hst. simpl.
    unfold get_command, bind.
    destruct (bool_decide (type params = "NS")).
    + by destruct cur.
    + by destruct (get_hosted_zone_nameservers route53 z tr0) as [[] ?].
  - by rewrite (main_of_plan _ _ _ _ _ Hplan).
  - by apply reads_no_submission.
  - intros r tr'. rewrite (main_of_plan _ _ _ _ _ Hplan).
    destruct (execute_real route53 params pl tr) as (o & waits & -> & _ & Ho).
    intros [= Ho' _] Hchanged.
    destruct Ho as [-> | [-> | [msg ->]]]; simplify_eq; done.
Qed.

(** ** Record location *)

Lemma record_set_matches_spec record_name record_type record_identifier rs :
  record_set_matches record_name record_type record_identifier rs = true
  <-> record_name = Name rs /\ record_type = Type_ rs
      /\ (opt_truthy record_identifier = true -> SetIdentifier rs = record_identifier).
Proof.
  unfold record_set_matches.
  destruct (decide ((record_name, record_type) = (Name rs, Type_ rs))) as [Heq | Hne].
  - rewrite (bool_decide_true _ Heq). injection Heq as -> ->. simpl.
    destruct (opt_truthy record_identifier); simpl.
    + destruct (decide (record_identifier = SetIdentifier rs)) as [-> | Hid].
      * rewrite bool_decide_true by done. simpl. naive_solver.
      * rewrite bool_decide_false by done. simpl.
        split; [done | intros (_ & _ & H); by rewrite H in Hid].
    + naive_solver.
  - rewrite (bool_decide_false _ Hne). simpl.
    split; [done | intros (-> & -> & _); done].
Qed.

Lemma get_record_run route53 zone_id record_name record_type record_identifier found tr :
  run (get_record route53 zone_id record_name record_type record_identifier)
  = (Ret found, tr) ->
  exists sets, record_sets route53 zone_id = Some sets
    /\ found = List.find (record_set_matches record_name record_type record_identifier) sets
    /\ tr = [CListRecordSets zone_id].
Proof.
  unfold run, get_record, bind, call. simpl.
  destruct (record_sets route53 zone_id) as [sets |]; [| done].
  intros [= <- <-]. eauto.
Qed.

(** C4 (as amended): a located record set is one of the zone's record sets
    and has exactly the queried name and type; when the query supplies a
    non-empty routing identifier the located set carries that identifier, so
    a set without an identifier is never returned for such a query; when the
    query supplies no identifier (or an empty one) the identifier is not
    compared, and the first set with that name and type is returned whether
    or not it carries an identifier. *)
Theorem get_record_match route53 zone_id record_name record_type record_identifier
    found tr :
  run (get_record route53 zone_id record_name record_type record_identifier)
  = (Ret found, tr) ->
  (forall rs, found = Some rs ->
     Name rs = record_name /\ Type_ rs = record_type
     /\ (forall i, record_identifier = Some i -> i <> "" ->
           SetIdentifier rs = Some i /\ SetIdentifier rs <> None))
  /\ (opt_truthy record_identifier = false ->
      exists sets, record_sets route53 zone_id = Some sets
        /\ found = List.find
                     (fun rs => bool_decide
                        ((record_name, record_type) = (Name rs, Type_ rs))) sets).
Proof.
  intros Hrun. apply get_record_run in Hrun as (sets & Hsets & -> & _). split.
  - intros rs Hfound. apply find_some in Hfound as [_ Hm].
    apply record_set_matches_spec in Hm as (-> & -> & Hid).
    split; [done | split; [done |]]. intros i -> Hi.
    assert (opt_truthy (Some i) = true) as Ht by (by destruct i).
    rewrite (Hid Ht). by split.
  - intros Hfalsy. exists sets. split; [done |].
    clear Hsets. induction sets as [| rs sets IH]; [done |]. simpl.
    unfold record_set_matches at 1. rewrite Hfalsy. simpl.
    destruct (bool_decide _); simpl; [done | exact IH].
Qed.

(** ** Zone resolution *)

(** With a VPC id that no candidate is associated with, the loop asks for
    the detail of every candidate and finds nothing. *)
Lemma zone_loop_unmatched_vpc route53 zones zone_name want_private v tr :
  v <> "" ->
  (forall zone, zone ∈ zones -> is_candidate zone_name want_private zone = true ->
     exists hosted_zone vpcs,
       hosted_zone_detail route53 (strip_hostedzone (zone_Id zone)) = Some hosted_zone
       /\ VPCs hosted_zone = Some vpcs /\ v ∉ VPCId <$> vpcs) ->
  zone_loop route53 zones zone_name want_private (Some v) tr
  = (Ret None, tr ++ detail_calls zone_name want_private zones).
Proof.
  intros Hv. revert tr.
  induction zones as [| zone rest IH]; intros tr Hall; simpl.
  { unfold detail_calls. simpl. by rewrite app_nil_r. }
  unfold detail_calls. simpl. fold (is_candidate zone_name want_private zone).
  destruct (is_candidate zone_name want_private zone) eqn:Hcand.
  - assert (PyStr.truthy v = true) as -> by (by destruct v).
    destruct (Hall zone) as (hz & vpcs & Hhz & Hvpcs & Hnotin); [by left | done |].
    unfold bind, call. simpl. rewrite Hhz, Hvpcs.
    rewrite bool_decide_false.
    + rewrite IH by (intros z Hz; apply Hall; by right).
      unfold detail_calls. by rewrite <- app_assoc.
    + intros Hin. apply Hnotin. rewrite list_fmap_compose in Hin.
      apply list_elem_of_fmap in Hin as (x & [= ->] & Hx). done.
  - apply IH. intros z Hz. apply Hall. by right.
Qed.

Lemma check_params_run params tr :
  check_params params tr = (Ret tt, tr)
  \/ exists msg, check_params params tr = (FailJson msg, tr).
Proof.
  unfold check_params, when, bind.
  destruct (_ || _); [| by left].
  destruct (_ && _); simpl; [right; by eexists |].
  destruct (_ && _); simpl; [right; by eexists | by left].
Qed.

(** C6: when the zone is looked up by name with a non-empty VPC id, and the
    VPC id is in the associated-network list of no private zone of that
    name, the lookup asks for the detail of every such zone and then returns
    nothing, and the run fails with the zone-does-not-exist message.  Public
    zones, of that name or not, play no part: nothing is assumed of them. *)
Theorem unmatched_vpc_zone_not_found route53 check_mode params v :
  opt_truthy (hosted_zone_id params) = false ->
  vpc_id params = Some v ->
  v <> "" ->
  (forall zone, zone ∈ hosted_zones route53 ->
     zone_PrivateZone zone = Some true -> zone_Name zone = zone_in params ->
     exists hosted_zone vpcs,
       hosted_zone_detail route53 (strip_hostedzone (zone_Id zone)) = Some hosted_zone
       /\ VPCs hosted_zone = Some vpcs /\ v ∉ VPCId <$> vpcs) ->
  let tr := CListHostedZones
            :: detail_calls (zone_in params) true (hosted_zones route53) in
  run (get_zone_id_by_name route53 (zone_in params) (private_zone_in params)
         (vpc_id params)) = (Ret None, tr)
  /\ run (find_zone route53 params) = (FailJson (zone_not_found_msg params), tr)
  /\ (run (check_params params) = (Ret tt, []) ->
      run (main route53 check_mode params)
      = (FailJson (zone_not_found_msg params), tr)).
Proof.
  intros Hid Hvpc Hv Hall tr.
  assert (run (get_zone_id_by_name route53 (zone_in params) (private_zone_in params)
                 (vpc_id params)) = (Ret None, tr)) as Hget.
  { unfold run, get_zone_id_by_name, private_zone_in, bind, call. rewrite Hvpc. simpl.
    apply zone_loop_unmatched_vpc; [done |].
    intros zone Hin Hcand. unfold is_candidate in Hcand.
    apply andb_true_iff in Hcand as [Hpriv Hname].
    apply bool_decide_eq_true in Hname.
    apply Hall; [done | | done].
    destruct (zone_PrivateZone zone) as [[] |]; done. }
  assert (run (find_zone route53 params) = (FailJson (zone_not_found_msg params), tr))
    as Hfind.
  { unfold run, find_zone in *. rewrite Hid. by rewrite (bind_ret _ _ _ _ _ Hget). }
  split; [done | split; [done |]].
  intros Hcheck. unfold run, main, plan, locate in *.
  apply bind_fail, bind_fail. rewrite (bind_ret _ _ _ _ _ Hcheck).
  by apply bind_fail.
Qed.

Lemma get_zone_id_by_name_run route53 zone_name want_private want_vpc_id tr :
  get_zone_id_by_name route53 zone_name want_private want_vpc_id tr
  = zone_loop route53 (hosted_zones route53) zone_name want_private want_vpc_id
      (tr ++ [CListHostedZones]).
Proof. reflexivity. Qed.

(** What the zone loop can return and which details it asks for: only those
    of candidates. *)
Lemma zone_loop_candidates route53 zones zone_name want_private want_vpc_id tr o tr' :
  zone_loop route53 zones zone_name want_private want_vpc_id tr = (o, tr') ->
  (forall zone_id, o = Ret (Some zone_id) ->
     exists zone, zone ∈ zones /\ is_candidate zone_name want_private zone = true
       /\ zone_id = strip_hostedzone (zone_Id zone))
  /\ exists ext, tr' = tr ++ ext
       /\ forall c, c ∈ ext ->
            exists zone, zone ∈ zones /\ is_candidate zone_name want_private zone = true
              /\ c = CGetHostedZone (strip_hostedzone (zone_Id zone)).
Proof.
  revert tr. induction zones as [| zone rest IH]; intros tr; simpl.
  { intros [= <- <-]. split; [done |]. exists []. rewrite app_nil_r.
    split; [done |]. intros c Hc. by apply elem_of_nil in Hc. }
  fold (is_candidate zone_name want_private zone).
  assert (forall tr0, zone_loop route53 rest zone_name want_private want_vpc_id tr0
                      = (o, tr') ->
            (forall zone_id, o = Ret (Some zone_id) ->
               exists z, z ∈ zone :: rest /\ is_candidate zone_name want_private z = true
                 /\ zone_id = strip_hostedzone (zone_Id z))
            /\ exists ext, tr' = tr0 ++ ext
                 /\ forall c, c ∈ ext ->
                      exists z, z ∈ zone :: rest
                        /\ is_candidate zone_name want_private z = true
                        /\ c = CGetHostedZone (strip_hostedzone (zone_Id z))) as Hrest.
  { intros tr0 H0. destruct (IH tr0 H0) as (Hret & ext & -> & Hext). split.
    - intros zid Hzid. destruct (Hret zid Hzid) as (z & ? & ? & ?).
      exists z. split; [by right | done].
    - exists ext. split; [done |]. intros c Hc.
      destruct (Hext c Hc) as (z & ? & ? & ?). exists z. split; [by right | done]. }
  destruct (is_candidate zone_name want_private zone) eqn:Hcand; [| apply Hrest].
  assert (exists z, z ∈ zone :: rest /\ is_candidate zone_name want_private z = true
            /\ CGetHostedZone (strip_hostedzone (zone_Id zone))
               = CGetHostedZone (strip_hostedzone (zone_Id z))) as Hself.
  { exists zone. split; [by left | done]. }
  assert (forall c, c ∈ [CGetHostedZone (strip_hostedzone (zone_Id zone))] ->
            exists z, z ∈ zone :: rest /\ is_candidate zone_name want_private z = true
              /\ c = CGetHostedZone (strip_hostedzone (zone_Id z))) as Hone.
  { intros c Hc. apply list_elem_of_singleton in Hc as ->. exact Hself. }
  destruct (opt_truthy want_vpc_id).
  - unfold bind, call. simpl.
    destruct (hosted_zone_detail route53 _) as [hz |].
    + destruct (VPCs hz) as [vpcs |].
      * destruct (bool_decide _).
        -- intros [= <- <-]. split.
           ++ intros zid [= <-]. exists zone. split; [by left | done].
           ++ eexists. split; [done | exact Hone].
        -- intros H0. destruct (Hrest _ H0) as (Hret & ext & -> & Hext).
           split; [done |]. eexists. rewrite <- app_assoc. split; [done |].
           intros c Hc. apply elem_of_app in Hc as [Hc | Hc]; auto.
      * intros [= <- <-]. split; [done |]. eexists. split; [done | exact Hone].
    + intros [= <- <-]. split; [done |]. eexists. split; [done | exact Hone].
  - intros [= <- <-]. split.
    + intros zid [= <-]. exists zone. split; [by left | done].
    + exists []. rewrite app_nil_r. split; [done |].
      intros c Hc. by apply elem_of_nil in Hc.
Qed.

(** C9: a request that carries a VPC id (any value but None) looks the zone
    up with private visibility whatever the private_zone flag says: the zone
    it resolves to is a listed private zone of the requested name, and every
    zone detail it asks for is that of a listed private zone of that name.
    (A zone id given directly is used as it is, without any search.) *)
Theorem vpc_id_forces_private route53 params v o tr :
  vpc_id params = Some v ->
  opt_truthy (hosted_zone_id params) = false ->
  run (find_zone route53 params) = (o, tr) ->
  private_zone_in params = true
  /\ (forall zone_id, o = Ret zone_id ->
        exists zone, zone ∈ hosted_zones route53
          /\ zone_PrivateZone zone = Some true
          /\ zone_Name zone = zone_in params
          /\ zone_id = strip_hostedzone (zone_Id zone))
  /\ (forall zone_id, CGetHostedZone zone_id ∈ tr ->
        exists zone, zone ∈ hosted_zones route53
          /\ zone_PrivateZone zone = Some true
          /\ zone_Name zone = zone_in params
          /\ zone_id = strip_hostedzone (zone_Id zone)).
Proof.
  intros Hvpc Hid Hrun.
  assert (private_zone_in params = true) as Hpriv.
  { unfold private_zone_in. by rewrite Hvpc. }
  split; [done |].
  assert (forall zone, is_candidate (zone_in params) true zone = true ->
            zone_PrivateZone zone = Some true /\ zone_Name zone = zone_in params)
    as Hcand.
  { intros zone Hc. unfold is_candidate in Hc.
    apply andb_true_iff in Hc as [Hp Hn]. apply bool_decide_eq_true in Hn.
    split; [| done]. by destruct (zone_PrivateZone zone) as [[] |]. }
  unfold run, find_zone in Hrun. rewrite Hid, Hpriv in Hrun.
  unfold bind in Hrun. rewrite get_zone_id_by_name_run in Hrun. simpl in Hrun.
  destruct (zone_loop route53 (hosted_zones route53) (zone_in params) true
              (vpc_id params) [CListHostedZones]) as [o' tr'] eqn:Hloop.
  destruct (zone_loop_candidates _ _ _ _ _ _ _ _ Hloop) as (Hret & ext & -> & Hext).
  assert (tr = [CListHostedZones] ++ ext) as ->.
  { destruct o' as [[z |] | | |]; by injection Hrun as _ <-. }
  split.
  - intros zone_id ->. destruct o' as [[z |] | | |]; try done.
    injection Hrun as ->. destruct (Hret zone_id eq_refl) as (zone & Hin & Hc & ->).
    destruct (Hcand zone Hc). eauto 6.
  - intros zone_id Hin. apply elem_of_app in Hin as [Hin | Hin].
    { apply list_elem_of_singleton in Hin. done. }
    destruct (Hext _ Hin) as (zone & Hz & Hc & [= ->]).
    destruct (Hcand zone Hc). eauto 6.
Qed.

(** ** The builder *)

Section Sorted.
Context {A : Type} (key : A -> string).

Lemma sorted_insert_Permutation x l : sorted_insert key x l ≡ₚ x :: l.
Proof.
  induction l as [| y l IH]; simpl; [done |].
  destruct (String.leb (key x) (key y)); [done |].
  rewrite IH. apply Permutation_swap.
Qed.

Lemma sorted_Permutation l : sorted key l ≡ₚ l.
Proof.
  induction l as [| x l IH]; simpl; [done |].
  by rewrite sorted_insert_Permutation, IH.
Qed.

Lemma leb_false_le a b : String.leb a b = false -> String.le b a.
Proof.
  intros Hf. destruct (total String.le a b) as [Hab | Hba]; [| done].
  unfold String.le in Hab. rewrite Hf in Hab. done.
Qed.

Lemma StronglySorted_sorted_insert x l :
  StronglySorted (key_le key) l -> StronglySorted (key_le key) (sorted_insert key x l).
Proof.
  induction 1 as [| y l Hl IH Hy]; simpl; [by repeat constructor |].
  destruct (String.leb (key x) (key y)) eqn:Hxy.
  - assert (key_le key x y) as Hle by (unfold key_le, String.le; by rewrite Hxy).
    constructor; [by constructor |]. constructor; [done |].
    eapply Forall_impl; [exact Hy |]. intros z Hz. unfold key_le in *. by etrans.
  - constructor; [done |].
    rewrite sorted_insert_Permutation. constructor; [| done].
    by apply leb_false_le.
Qed.

Lemma StronglySorted_sorted l : StronglySorted (key_le key) (sorted key l).
Proof.
  induction l as [| x l IH]; simpl; [constructor |].
  by apply StronglySorted_sorted_insert.
Qed.

(** When the key determines the element, the sorted list depends on the
    elements only, not on their order. *)
Lemma sorted_of_Permutation `{!Inj (=) (=) key} l1 l2 :
  l1 ≡ₚ l2 -> sorted key l1 = sorted key l2.
Proof.
  intros Hperm. apply (StronglySorted_unique_strong (key_le key)).
  - intros x1 x2 _ _ H12 H21. apply (inj key).
    unfold key_le in *. by apply (anti_symm String.le).
  - apply StronglySorted_sorted.
  - apply StronglySorted_sorted.
  - by rewrite !sorted_Permutation.
Qed.
End Sorted.

Global Instance Value_inj : Inj (=) (=) Value.
Proof. intros [x] [y]. simpl. by intros ->. Qed.

Global Instance Build_ResourceRecord_inj : Inj (=) (=) Build_ResourceRecord.
Proof. by intros x y [= ->]. Qed.

(** The builder raises exactly when the request is an alias that has no
    value (line 565) or is of type CAA (line 575). *)
Lemma build_raises params :
  (exists e, build_resource_record_set params = inl e)
  <-> flag (alias params) = true /\ (value_in params = [] \/ type params = "CAA").
Proof.
  unfold build_resource_record_set.
  destruct (flag (alias params)).
  - destruct (value_in params) as [| v0 vs].
    + split; [auto | intros _; eauto].
    + destruct (decide (type params = "CAA")) as [Hcaa | Hcaa].
      * rewrite (bool_decide_true _ Hcaa). simpl. split; [auto | intros _; eauto].
      * rewrite (bool_decide_false _ Hcaa). split; [by intros [e ?] |].
        intros [_ [? | ?]]; done.
  - destruct (bool_decide (type params = "CAA")); simpl;
      (split; [by intros [e ?] | by intros [? _]]).
Qed.

(** C7: a record set the builder returns holds an alias target or a value
    list, never both and never neither; with an alias target it has no TTL
    and no value list; without one its TTL is the request's TTL.  This holds
    for every request: an alias request of type CAA builds no record set at
    all (see [build_raises]). *)
Theorem built_alias_xor_values params r :
  build_resource_record_set params = inr r ->
  (AliasTarget r <> None -> TTL r = None /\ ResourceRecords r = None)
  /\ (AliasTarget r = None <-> ResourceRecords r <> None)
  /\ (AliasTarget r = None -> TTL r = ttl params)
  /\ (AliasTarget r <> None <-> flag (alias params) = true).
Proof.
  unfold build_resource_record_set.
  destruct (flag (alias params)).
  - destruct (value_in params) as [| v0 vs]; [done |].
    destruct (bool_decide (type params = "CAA")); simpl; [done |].
    intros [= <-]. simpl. naive_solver.
  - destruct (bool_decide (type params = "CAA")); simpl;
      intros [= <-]; simpl; naive_solver.
Qed.

Lemma Value_of_records (vs : list string) :
  Value <$> (Build_ResourceRecord <$> vs) = vs.
Proof. induction vs as [| v vs IH]; [done |]. rewrite !fmap_cons. by f_equal. Qed.

Lemma value_in_with_value vs params : value_in (with_value vs params) = vs.
Proof. reflexivity. Qed.

(** C5: for every request of type CAA, a request that differs only in the
    order of its values builds the same thing; the built record set holds
    the values sorted by string order; and an apply of the reordered request
    that locates the record set built from the original one exits with
    changed=false, with no submission in its trace. *)
Theorem caa_values_order_insensitive params vs' :
  type params = "CAA" ->
  value_in params ≡ₚ vs' ->
  build_resource_record_set (with_value vs' params) = build_resource_record_set params
  /\ (forall d, build_resource_record_set params = inr d ->
        exists rrs, ResourceRecords d = Some rrs
          /\ StronglySorted (key_le Value) rrs
          /\ Value <$> rrs ≡ₚ value_in params)
  /\ (forall route53 check_mode zone_id d tr,
        state params = present \/ state params = create ->
        build_resource_record_set params = inr d ->
        run (locate route53 (with_value vs' params)) = (Ret (zone_id, Some d), tr) ->
        run (main route53 check_mode (with_value vs' params)) = (ExitJson unchanged, tr)
        /\ no_submission tr).
Proof.
  intros Hcaa Hperm.
  assert (build_resource_record_set (with_value vs' params)
          = build_resource_record_set params) as Hsame.
  { unfold build_resource_record_set, scrubbed_record_set, record_in.
    rewrite value_in_with_value. simpl. rewrite Hcaa. simpl.
    destruct (flag (alias params)).
    - destruct (value_in params) as [| v0 vs].
      + apply Permutation_nil in Hperm. by subst vs'.
      + destruct vs' as [| v0' vs'']; [| done].
        symmetry in Hperm. by apply Permutation_nil in Hperm.
    - simpl. unfold set_ResourceRecords. simpl. do 3 f_equal.
      apply sorted_of_Permutation; [apply _ |]. by rewrite Hperm. }
  split; [done | split].
  - intros d. unfold build_resource_record_set. rewrite Hcaa. simpl.
    destruct (flag (alias params)).
    + by destruct (value_in params).
    + simpl. intros [= <-]. simpl. eexists. split; [done |]. split.
      * apply StronglySorted_sorted.
      * by rewrite sorted_Permutation, Value_of_records.
  - intros route53 check_mode zone_id d tr Hstate Hbuild Hloc.
    apply (main_equal_exits route53 check_mode (with_value vs' params) zone_id d tr);
      [| done | by rewrite Hsame].
    unfold command_in. simpl. by destruct Hstate as [-> | ->].
Qed.

(** ** The wait *)

(** A provider that never reports INSYNC makes the waiter use up all its
    attempts. *)
Lemma waiter_loop_never_insync route53 change_id sleep_amount remaining k tr :
  (forall j, change_insync route53 change_id j = false) ->
  waiter_loop route53 change_id sleep_amount remaining k tr
  = (Raise WaiterError, tr ++ never_insync_calls change_id sleep_amount remaining).
Proof.
  intros Hnever. revert k tr.
  induction remaining as [| remaining IH]; intros k tr; simpl;
    unfold bind, call; simpl; rewrite Hnever; [done |].
  rewrite IH. unfold never_insync_calls. simpl. by rewrite <- !app_assoc.
Qed.

Lemma polls_never_insync change_id sleep_amount remaining :
  polls (never_insync_calls change_id sleep_amount remaining) = S remaining.
Proof.
  unfold polls, never_insync_calls. simpl. f_equal.
  induction remaining as [| remaining IH]; simpl; [done | by rewrite IH].
Qed.

Lemma slept_never_insync change_id sleep_amount remaining :
  slept (never_insync_calls change_id sleep_amount remaining)
  = Z.of_nat remaining * sleep_amount.
Proof.
  unfold slept, never_insync_calls. simpl.
  induction remaining as [| remaining IH]; [done |].
  rewrite Nat2Z.inj_succ. simpl in *. rewrite IH. lia.
Qed.

(** The dictionary of line 619 has no key [MaxAttempts]: its second key is
    spelt [MaxAttemps]. *)
Lemma waiter_config_lookup params :
  waiter_config params !! "Delay" = Some WAIT_RETRY
  /\ waiter_config params !! "MaxAttempts" = None
  /\ waiter_config params !! "MaxAttemps" = Some (wait_timeout params `div` WAIT_RETRY).
Proof. unfold waiter_config. by simplify_map_eq. Qed.

(** So the wait of [main] runs on the waiter's own 60 attempts, whatever the
    timeout of the request. *)
Lemma submit_wait_never_insync route53 params zone_id command rrs change_id tr :
  wait params = true ->
  submit_change route53 zone_id command rrs = ChangeAccepted change_id ->
  (forall j, change_insync route53 change_id j = false) ->
  submit route53 params zone_id command rrs tr
  = (FailJson timeout_msg,
     tr ++ CChangeRecordSets zone_id command rrs
        :: never_insync_calls change_id WAIT_RETRY 59).
Proof.
  intros Hwait Hsubmit Hnever. unfold submit, bind, call. simpl.
  rewrite Hsubmit, Hwait. unfold waiter_wait.
  destruct (waiter_config_lookup params) as (-> & -> & _).
  rewrite waiter_loop_never_insync by done. rewrite <- app_assoc. reflexivity.
Qed.

(** C3: the run of the request with wait and a timeout of 10 seconds, on a
    provider that never reports INSYNC, ends with the timeout failure after
    60 polls and 295 seconds of sleep: the waiter's default number of
    attempts at the 5 second delay, not the 2 attempts of 10 // 5. *)
Theorem wait_timeout_10_polls_60_times :
  wait req_wait_10 = true /\ wait_timeout req_wait_10 = 10
  /\ wait_timeout req_wait_10 `div` WAIT_RETRY = 2
  /\ exists tr,
       run (main r53_foo false req_wait_10) = (FailJson timeout_msg, tr)
       /\ polls tr = 60%nat /\ slept tr = 295.
Proof.
  split; [done | split; [done | split; [done |]]].
  eexists. split; [by vm_compute | by vm_compute].
Qed.

(** ** state=get *)

Lemma plan_of_located route53 params zone_id aws_record tr rrs :
  run (locate route53 params) = (Ret (zone_id, aws_record), tr) ->
  build_resource_record_set params = inr rrs ->
  command_in params = "get" ->
  run (plan route53 params) = bind (get_command route53 params zone_id aws_record)
                                (fun _ => raise UnboundLocalError) tr.
Proof.
  intros Hloc Hbuild Hcmd. unfold run, plan in *.
  rewrite (bind_ret _ _ _ _ _ Hloc). simpl. rewrite Hbuild. simpl.
  unfold bind at 1. simpl. rewrite Hcmd. simpl.
  unfold bind, when. simpl.
  destruct (get_command route53 params zone_id aws_record tr) as [[[] | | |] tr'];
    try done.
  unfold choose_command. by rewrite Hcmd.
Qed.

(** A get of type NS that locates nothing raises [AttributeError]
    (line 582). *)
Lemma get_ns_missing_raises route53 check_mode params zone_id tr rrs :
  run (locate route53 params) = (Ret (zone_id, None), tr) ->
  build_resource_record_set params = inr rrs ->
  state params = get -> type params = "NS" ->
  run (main route53 check_mode params) = (Raise AttributeError, tr).
Proof.
  intros Hloc Hbuild Hst Hty.
  assert (command_in params = "get") as Hcmd by (unfold command_in; by rewrite Hst).
  unfold run, main. apply bind_raise.
  change (run (plan route53 params) = (Raise AttributeError, tr)).
  rewrite (plan_of_located _ _ _ _ _ _ Hloc Hbuild Hcmd).
  unfold get_command, bind. by rewrite Hty.
Qed.

(** A get of type NS that locates a record set reports an empty nameserver
    list, without asking the zone for its nameservers. *)
Lemma get_ns_found_no_nameservers route53 check_mode params zone_id r tr rrs :
  run (locate route53 params) = (Ret (zone_id, Some r), tr) ->
  build_resource_record_set params = inr rrs ->
  state params = get -> type params = "NS" ->
  run (main route53 check_mode params)
  = (ExitJson {| changed := false; result_set := Some (Some r);
                 nameservers := Some []; diff := None |}, tr).
Proof.
  intros Hloc Hbuild Hst Hty.
  assert (command_in params = "get") as Hcmd by (unfold command_in; by rewrite Hst).
  unfold run, main. eapply bind_exit.
  change (run (plan route53 params) = (ExitJson
            {| changed := false; result_set := Some (Some r);
               nameservers := Some []; diff := None |}, tr)).
  rewrite (plan_of_located _ _ _ _ _ _ Hloc Hbuild Hcmd).
  unfold get_command, bind. by rewrite Hty.
Qed.

(** A get of any other type reports the located record set, or its absence,
    with the nameservers of the zone. *)
Lemma get_other_type route53 check_mode params zone_id aws_record tr rrs ns tr' :
  run (locate route53 params) = (Ret (zone_id, aws_record), tr) ->
  build_resource_record_set params = inr rrs ->
  state params = get -> type params <> "NS" ->
  get_hosted_zone_nameservers route53 zone_id tr = (Ret ns, tr') ->
  run (main route53 check_mode params)
  = (ExitJson {| changed := false; result_set := Some aws_record;
                 nameservers := Some ns; diff := None |}, tr').
Proof.
  intros Hloc Hbuild Hst Hty Hns.
  assert (command_in params = "get") as Hcmd by (unfold command_in; by rewrite Hst).
  unfold run, main. eapply bind_exit.
  change (run (plan route53 params) = (ExitJson
            {| changed := false; result_set := Some aws_record;
               nameservers := Some ns; diff := None |}, tr')).
  rewrite (plan_of_located _ _ _ _ _ _ Hloc Hbuild Hcmd).
  unfold get_command, bind. rewrite bool_decide_false by done. by rewrite Hns.
Qed.

(** C8: the get of the NS record set of sub.foo.com, which the zone does not
    hold, ends in an uncaught [AttributeError] after the two listing calls;
    a get is specified to succeed with changed=false, the absence of the
    record set and the nameservers of the zone. *)
Theorem get_missing_ns_record_raises :
  state req_get_ns_missing = get /\ type req_get_ns_missing = "NS"
  /\ run (locate r53_foo req_get_ns_missing)
     = (Ret ("ZPUBLIC", None), [CListHostedZones; CListRecordSets "ZPUBLIC"])
  /\ run (main r53_foo false req_get_ns_missing)
     = (Raise AttributeError, [CListHostedZones; CListRecordSets "ZPUBLIC"]).
Proof. by vm_compute. Qed.

(** ** The properties on the sample data *)

(** An apply of new.foo.com that finds the record set it would build. *)
Lemma apply_equal_is_noop_witness :
  run (main r53_foo false req_new_foo)
  = (ExitJson unchanged, [CListHostedZones; CListRecordSets "ZPUBLIC"])
  /\ changed unchanged = false
  /\ no_submission [CListHostedZones; CListRecordSets "ZPUBLIC"].
Proof.
  apply (apply_equal_is_noop r53_foo false req_new_foo "ZPUBLIC" rs_new_foo rs_new_foo).
  - by left.
  - by vm_compute.
  - by vm_compute.
  - done.
Defined.

Lemma rs_new_foo_changed :
  rs_new_foo
  <> plain_record_set "new.foo.com." "A" 7200 ["1.1.1.1"; "2.2.2.2"; "9.9.9.9"].
Proof. intros H. vm_compute in H. discriminate H. Qed.

(** An apply of new.foo.com with one other address, with overwrite. *)
Lemma apply_differs_conflict_or_upsert_witness :
  no_submission [CListHostedZones; CListRecordSets "ZPUBLIC"]
  /\ exists waits,
       run (main r53_foo false (with_overwrite req_new_foo_changed))
       = (ExitJson (changed_result
            {| plan_zone_id := "ZPUBLIC"; plan_aws_record := Some rs_new_foo;
               plan_record_set :=
                 plain_record_set "new.foo.com." "A" 7200
                   ["1.1.1.1"; "2.2.2.2"; "9.9.9.9"];
               plan_command := "UPSERT" |}),
          [CListHostedZones; CListRecordSets "ZPUBLIC"]
          ++ CChangeRecordSets "ZPUBLIC" "UPSERT"
               (plain_record_set "new.foo.com." "A" 7200
                  ["1.1.1.1"; "2.2.2.2"; "9.9.9.9"]) :: waits).
Proof.
  destruct (apply_differs_conflict_or_upsert r53_foo false
              (with_overwrite req_new_foo_changed) "ZPUBLIC"
              (plain_record_set "new.foo.com." "A" 7200
                 ["1.1.1.1"; "2.2.2.2"; "9.9.9.9"])
              rs_new_foo [CListHostedZones; CListRecordSets "ZPUBLIC"])
    as (Hno & _ & Hupsert).
  - by left.
  - by vm_compute.
  - by vm_compute.
  - exact rs_new_foo_changed.
  - split; [exact Hno |].
    destruct (Hupsert eq_refl) as (pl & _ & _ & o & ext & Hrun & waits & -> & _).
    exists waits. rewrite Hrun. f_equal.
    assert ((run (main r53_foo false (with_overwrite req_new_foo_changed))).1
            = ExitJson (changed_result
                {| plan_zone_id := "ZPUBLIC"; plan_aws_record := Some rs_new_foo;
                   plan_record_set :=
                     plain_record_set "new.foo.com." "A" 7200
                       ["1.1.1.1"; "2.2.2.2"; "9.9.9.9"];
                   plan_command := "UPSERT" |})) as Hout by (by vm_compute).
    by rewrite Hrun in Hout.
Defined.

(** C4, counterexample: a query without a routing identifier locates the
    weighted record set www.foo.com, which carries the identifier blue. *)
Lemma identifier_less_query_matches_identified_set :
  SetIdentifier rs_www_blue = Some "blue"
  /\ record_set_matches "www.foo.com." "A" None rs_www_blue = true
  /\ run (get_record r53_foo "ZPUBLIC" "www.foo.com." "A" None)
     = (Ret (Some rs_www_blue), [CListRecordSets "ZPUBLIC"]).
Proof. by vm_compute. Qed.

(** A query for the identifier blue locates the record set that carries it. *)
Lemma get_record_match_witness :
  Name rs_www_blue = "www.foo.com." /\ Type_ rs_www_blue = "A"
  /\ SetIdentifier rs_www_blue = Some "blue".
Proof.
  destruct (get_record_match r53_foo "ZPUBLIC" "www.foo.com." "A" (Some "blue")
              (Some rs_www_blue) [CListRecordSets "ZPUBLIC"]) as [Hfound _].
  - by vm_compute.
  - destruct (Hfound rs_www_blue eq_refl) as (Hn & Ht & Hid).
    split; [exact Hn | split; [exact Ht |]].
    destruct (Hid "blue" eq_refl) as [Hblue _]; [done | exact Hblue].
Defined.

(** The CAA request with its values in reverse order, applied on the zone
    that holds the record set built from the values in order. *)
Lemma caa_values_order_insensitive_witness :
  build_resource_record_set req_caa_reversed
  = build_resource_record_set
      (request present "caa.foo.com" "CAA"
         ["0 issue 'ca.example.net'"; "0 issuewild ';'"])
  /\ run (main r53_foo false req_caa_reversed)
     = (ExitJson unchanged, [CListHostedZones; CListRecordSets "ZPUBLIC"]).
Proof.
  destruct (caa_values_order_insensitive
              (request present "caa.foo.com" "CAA"
                 ["0 issue 'ca.example.net'"; "0 issuewild ';'"])
              ["0 issuewild ';'"; "0 issue 'ca.example.net'"])
    as (Hsame & _ & Hnoop).
  - reflexivity.
  - apply Permutation_swap.
  - split; [exact Hsame |].
    apply (Hnoop r53_foo false "ZPUBLIC" rs_caa
             [CListHostedZones; CListRecordSets "ZPUBLIC"]).
    + by left.
    + by vm_compute.
    + by vm_compute.
Defined.

(** The private zone foo.com is associated with vpc-1 only; a request for
    vpc-2 finds no zone although the public zone foo.com is listed. *)
Lemma unmatched_vpc_zone_not_found_witness :
  zone_foo_public ∈ hosted_zones r53_foo
  /\ run (main r53_foo false (with_vpc_id "vpc-2" req_new_foo))
     = (FailJson "Zone foo.com. does not exist in Route53",
        [CListHostedZones; CGetHostedZone "ZPRIVATE"]).
Proof.
  split; [by left |].
  destruct (unmatched_vpc_zone_not_found r53_foo false
              (with_vpc_id "vpc-2" req_new_foo) "vpc-2") as (_ & _ & Hmain).
  - reflexivity.
  - reflexivity.
  - done.
  - intros zone Hin Hprivate _.
    apply elem_of_cons in Hin as [-> | Hin]; [done |].
    apply list_elem_of_singleton in Hin as ->.
    exists {| detail_Name := "foo.com."; VPCs := Some [ {| VPCId := "vpc-1" |} ] |},
           [ {| VPCId := "vpc-1" |} ].
    split; [by vm_compute | split; [done |]].
    intros Hin. apply list_elem_of_singleton in Hin. done.
  - apply Hmain. by vm_compute.
Defined.

(** An alias request builds an alias target and nothing else. *)
Lemma built_alias_xor_values_witness :
  exists r,
    build_resource_record_set
      (with_alias "Z2" (request present "a.foo.com" "A" ["elb.example.com."]))
    = inr r
    /\ AliasTarget r <> None /\ TTL r = None /\ ResourceRecords r = None.
Proof.
  eexists. split; [by vm_compute |].
  destruct (built_alias_xor_values
              (with_alias "Z2" (request present "a.foo.com" "A" ["elb.example.com."]))
              _ eq_refl) as (Halias & _ & _ & Hflag).
  assert (flag (alias (with_alias "Z2"
            (request present "a.foo.com" "A" ["elb.example.com."]))) = true) as Ht
    by reflexivity.
  apply Hflag in Ht. split; [exact Ht | exact (Halias Ht)].
Defined.

(** With vpc-1 and private_zone left false, the request resolves to the
    private zone. *)
Lemma vpc_id_forces_private_witness :
  private_zone (with_vpc_id "vpc-1" req_new_foo) = false
  /\ private_zone_in (with_vpc_id "vpc-1" req_new_foo) = true
  /\ exists zone, zone ∈ hosted_zones r53_foo
       /\ zone_PrivateZone zone = Some true
       /\ "ZPRIVATE" = strip_hostedzone (zone_Id zone).
Proof.
  split; [reflexivity |].
  destruct (vpc_id_forces_private r53_foo (with_vpc_id "vpc-1" req_new_foo) "vpc-1"
              (Ret "ZPRIVATE") [CListHostedZones; CGetHostedZone "ZPRIVATE"])
    as (Hpriv & Hret & _).
  - reflexivity.
  - reflexivity.
  - by vm_compute.
  - split; [exact Hpriv |].
    destruct (Hret "ZPRIVATE" eq_refl) as (zone & Hin & Hp & _ & Hid).
    exists zone. by repeat split.
Defined.

(** A remove of new.foo.com in check mode. *)
Lemma check_mode_submits_nothing_witness :
  exists pl,
    run (main r53_foo true (request absent "new.foo.com" "A" ["1.1.1.1"]))
    = (ExitJson (changed_result pl), [CListHostedZones; CListRecordSets "ZPUBLIC"])
    /\ plan_command pl = "DELETE"
    /\ no_submission [CListHostedZones; CListRecordSets "ZPUBLIC"].
Proof.
  exists plan_remove_new_foo.
  destruct (check_mode_submits_nothing r53_foo
              (request absent "new.foo.com" "A" ["1.1.1.1"]) plan_remove_new_foo
              [CListHostedZones; CListRecordSets "ZPUBLIC"])
    as (_ & Hmain & _ & Hno & _).
  - by vm_compute.
  - split; [exact Hmain | split; [reflexivity | exact Hno]].
Defined.

(** An empty VPC id still forces private visibility (line 506 tests for
    None) but is not used as a filter (line 415 tests for truth): the first
    private zone of the name is taken, without a look at its VPCs. *)
Example empty_vpc_id_is_no_filter :
  run (find_zone r53_foo (with_vpc_id "" req_new_foo))
  = (Ret "ZPRIVATE", [CListHostedZones]).
Proof. by vm_compute. Qed.

(** An alias request of type CAA builds nothing: line 575 reads the key
    that line 569 has deleted. *)
Example alias_caa_raises :
  build_resource_record_set
    (with_alias "Z2" (request present "a.foo.com" "CAA" ["elb.example.com."]))
  = inl (KeyError "ResourceRecords").
Proof. by vm_compute. Qed.

(** The verb of a remove is DELETE, in upper case, so the test of line 637
    against the lower-case word never selects the empty dictionary. *)
Example remove_diff_after_is_desired :
  diff_after (plan_command plan_remove_new_foo) (plan_record_set plan_remove_new_foo)
  = Some (plan_record_set plan_remove_new_foo).
Proof. reflexivity. Qed.

(** * Further properties of the code *)

(** ** The decision table of lines 577-598 *)

(** The plan once the record set is located and the desired one is built. *)
Lemma plan_located route53 params zone_id aws_record tr d :
  run (locate route53 params) = (Ret (zone_id, aws_record), tr) ->
  build_resource_record_set params = inr d ->
  run (plan route53 params)
  = (when (bool_decide (command_in params = "create")
           && bool_decide (aws_record = Some d))
       (exit_json unchanged);;;
     when (bool_decide (command_in params = "get"))
       (get_command route53 params zone_id aws_record);;;
     when (bool_decide (command_in params = "delete")
           && bool_decide (aws_record = None))
       (exit_json unchanged);;;
     command <- choose_command params aws_record;;
     ret {| plan_zone_id := zone_id; plan_aws_record := aws_record;
            plan_record_set := d; plan_command := command |}) tr.
Proof.
  intros Hloc Hbuild. unfold run, plan in *.
  rewrite (bind_ret _ _ _ _ _ Hloc). simpl. by rewrite Hbuild.
Qed.

Lemma command_in_apply params :
  state params = present \/ state params = create -> command_in params = "create".
Proof. unfold command_in. by intros [-> | ->]. Qed.

Lemma command_in_remove params :
  state params = absent \/ state params = delete -> command_in params = "delete".
Proof. unfold command_in. by intros [-> | ->]. Qed.

Lemma plan_create_absent route53 params zone_id tr d :
  command_in params = "create" ->
  run (locate route53 params) = (Ret (zone_id, None), tr) ->
  build_resource_record_set params = inr d ->
  run (plan route53 params)
  = (Ret {| plan_zone_id := zone_id; plan_aws_record := None;
            plan_record_set := d; plan_command := "CREATE" |}, tr).
Proof.
  intros Hcmd Hloc Hbuild. rewrite (plan_located _ _ _ _ _ _ Hloc Hbuild).
  unfold choose_command. rewrite Hcmd. reflexivity.
Qed.

Lemma plan_delete_present route53 params zone_id aws_record tr d :
  command_in params = "delete" ->
  run (locate route53 params) = (Ret (zone_id, Some aws_record), tr) ->
  build_resource_record_set params = inr d ->
  run (plan route53 params)
  = (Ret {| plan_zone_id := zone_id; plan_aws_record := Some aws_record;
            plan_record_set := d; plan_command := "DELETE" |}, tr).
Proof.
  intros Hcmd Hloc Hbuild. rewrite (plan_located _ _ _ _ _ _ Hloc Hbuild).
  unfold choose_command. rewrite Hcmd. reflexivity.
Qed.

(** A submission that is accepted, without wait: one call and no more. *)
Lemma submit_accepted_no_wait route53 params zone_id command rrs change_id tr :
  wait params = false ->
  submit_change route53 zone_id command rrs = ChangeAccepted change_id ->
  submit route53 params zone_id command rrs tr
  = (Ret tt, tr ++ [CChangeRecordSets zone_id command rrs]).
Proof.
  intros Hwait Hsubmit. unfold submit, bind, call. simpl.
  by rewrite Hsubmit, Hwait.
Qed.

(** X1: a remove (state absent or delete) that locates no record set exits
    with changed=false at line 590, and its trace holds no submission. *)
Theorem remove_absent_is_noop route53 check_mode params zone_id d tr :
  state params = absent \/ state params = delete ->
  build_resource_record_set params = inr d ->
  run (locate route53 params) = (Ret (zone_id, None), tr) ->
  run (main route53 check_mode params) = (ExitJson unchanged, tr)
  /\ no_submission tr.
Proof.
  intros Hstate Hbuild Hloc. apply command_in_remove in Hstate. split.
  - unfold run, main. eapply bind_exit.
    change (run (plan route53 params) = (ExitJson unchanged, tr)).
    rewrite (plan_located _ _ _ _ _ _ Hloc Hbuild). rewrite Hstate. reflexivity.
  - apply reads_no_submission. eapply adds_run; [apply adds_locate | done].
Qed.

(** X2: an apply (state present or create) that locates no record set
    plans the verb CREATE; outside check mode, without wait and with the
    change accepted, the run makes exactly one more call, the CREATE of the
    built record set in the resolved zone, and reports changed=true with
    before absent and after the built record set. *)
Theorem apply_absent_creates route53 params zone_id d change_id tr :
  state params = present \/ state params = create ->
  build_resource_record_set params = inr d ->
  run (locate route53 params) = (Ret (zone_id, None), tr) ->
  wait params = false ->
  submit_change route53 zone_id "CREATE" d = ChangeAccepted change_id ->
  run (main route53 false params)
  = (ExitJson {| changed := true; result_set := None; nameservers := None;
                 diff := Some {| before := None; after := Some d |} |},
     tr ++ [CChangeRecordSets zone_id "CREATE" d]).
Proof.
  intros Hstate Hbuild Hloc Hwait Hsubmit. apply command_in_apply in Hstate.
  rewrite (main_of_plan _ _ _ _ _
             (plan_create_absent _ _ _ _ _ Hstate Hloc Hbuild)).
  unfold execute, when, bind. simpl.
  by rewrite (submit_accepted_no_wait _ _ _ _ _ _ _ Hwait Hsubmit).
Qed.

(** X3: a remove that locates a record set submits DELETE of the record set
    built from the request, whatever the located one holds: the located
    record set is not compared and only appears as the before of the diff,
    whose after is the built record set. *)
Theorem remove_present_deletes_desired route53 params zone_id aws_record d
    change_id tr :
  state params = absent \/ state params = delete ->
  build_resource_record_set params = inr d ->
  run (locate route53 params) = (Ret (zone_id, Some aws_record), tr) ->
  wait params = false ->
  submit_change route53 zone_id "DELETE" d = ChangeAccepted change_id ->
  run (main route53 false params)
  = (ExitJson {| changed := true; result_set := None; nameservers := None;
                 diff := Some {| before := Some aws_record; after := Some d |} |},
     tr ++ [CChangeRecordSets zone_id "DELETE" d]).
Proof.
  intros Hstate Hbuild Hloc Hwait Hsubmit. apply command_in_remove in Hstate.
  rewrite (main_of_plan _ _ _ _ _
             (plan_delete_present _ _ _ _ _ _ Hstate Hloc Hbuild)).
  unfold execute, when, bind. simpl.
  by rewrite (submit_accepted_no_wait _ _ _ _ _ _ _ Hwait Hsubmit).
Qed.

(** ** What every run keeps *)

(** [locate] never exits: it returns, fails or raises. *)
Lemma locate_no_exit route53 params r tr :
  run (locate route53 params) <> (ExitJson r, tr).
Proof.
  unfold run, locate, bind.
  destruct (check_params_run params []) as [-> | [msg ->]]; [| done].
  unfold find_zone, bind.
  destruct (opt_truthy (hosted_zone_id params)).
  - simpl. destruct (hosted_zone_id params) as [id |]; simpl; [| done].
    unfold get_record, bind, call. simpl.
    by destruct (record_sets route53 id).
  - rewrite get_zone_id_by_name_run.
    destruct (zone_loop route53 _ _ _ _ _) as [[[id |] | r' | |] tr0] eqn:Hloop;
      simpl; try done.
    + unfold get_record, bind, call. simpl. by destruct (record_sets route53 id).
    + exfalso. revert Hloop. generalize ([] ++ [CListHostedZones]).
      induction (hosted_zones route53) as [| zone rest IH]; intros tr1; simpl; [done |].
      destruct (_ && _); [| apply IH].
      destruct (opt_truthy (vpc_id params)); [| done].
      unfold bind, call. simpl.
      destruct (hosted_zone_detail route53 _) as [hz |]; [| done].
      destruct (VPCs hz); [| done].
      destruct (bool_decide _); [done | apply IH].
Qed.

Lemma nameservers_no_exit route53 zone_id tr r tr' :
  get_hosted_zone_nameservers route53 zone_id tr <> (ExitJson r, tr').
Proof.
  unfold get_hosted_zone_nameservers, bind, call. simpl.
  destruct (hosted_zone_detail route53 zone_id) as [hz |]; [| done]. simpl.
  destruct (record_sets route53 zone_id) as [sets |]; [| done].
  destruct (List.filter _ sets) as [| ns_set ?]; [done |].
  by destruct (ResourceRecords ns_set).
Qed.

(** What a plan that returns has fixed, and what a plan that exits
    reports. *)
Lemma plan_outcome route53 params o tr :
  run (plan route53 params) = (o, tr) ->
  match o with
  | Ret pl =>
      run (locate route53 params) = (Ret (plan_zone_id pl, plan_aws_record pl), tr)
      /\ build_resource_record_set params = inr (plan_record_set pl)
      /\ (command_in params = "create"
          /\ (plan_aws_record pl = None /\ plan_command pl = "CREATE"
              \/ plan_aws_record pl <> None /\ plan_command pl = "UPSERT"
                 /\ flag (overwrite params) = true
                 /\ plan_aws_record pl <> Some (plan_record_set pl))
          \/ command_in params = "delete"
             /\ plan_aws_record pl <> None /\ plan_command pl = "DELETE")
  | ExitJson r => changed r = false /\ diff r = None
  | _ => True
  end.
Proof.
  destruct (run (locate route53 params)) as [[[zone_id aws_record] | r | msg | e] tr0]
    eqn:Hloc.
  2: { by apply locate_no_exit in Hloc. }
  2, 3: unfold run, plan in *; unfold bind at 1; rewrite Hloc; by intros [= <- <-].
  destruct (build_resource_record_set params) as [e | d] eqn:Hbuild.
  { unfold run, plan in *. rewrite (bind_ret _ _ _ _ _ Hloc). simpl.
    rewrite Hbuild. by intros [= <- <-]. }
  rewrite (plan_located _ _ _ _ _ _ Hloc Hbuild).
  unfold choose_command, get_command, command_in, when, bind.
  destruct (state params); simpl.
  - (* absent *)
    destruct aws_record as [r |]; simpl; intros [= <- <-]; [| done].
    simpl. split; [done | split; [done |]]. right. by repeat split.
  - (* create *)
    destruct (decide (aws_record = Some d)) as [-> | Hne].
    + rewrite bool_decide_true by done. by intros [= <- <-].
    + rewrite bool_decide_false by done. simpl.
      destruct aws_record as [r |]; simpl.
      * destruct (flag (overwrite params)) eqn:Hov; simpl; intros [= <- <-]; [| done].
        simpl. split; [done | split; [done |]]. left. split; [done |]. right.
        by repeat split.
      * intros [= <- <-]. simpl. split; [done | split; [done |]]. left. split; [done |].
        by left.
  - (* delete *)
    destruct aws_record as [r |]; simpl; intros [= <- <-]; [| done].
    simpl. split; [done | split; [done |]]. right. by repeat split.
  - (* get *)
    destruct (bool_decide (type params = "NS")).
    + destruct aws_record; simpl; by intros [= <- <-].
    + destruct (get_hosted_zone_nameservers route53 zone_id tr0) as [[ns | r | |] ?]
        eqn:Hns; simpl; try (by intros [= <- <-]).
      by apply nameservers_no_exit in Hns.
  - (* present *)
    destruct (decide (aws_record = Some d)) as [-> | Hne].
    + rewrite bool_decide_true by done. by intros [= <- <-].
    + rewrite bool_decide_false by done. simpl.
      destruct aws_record as [r |]; simpl.
      * destruct (flag (overwrite params)) eqn:Hov; simpl; intros [= <- <-]; [| done].
        simpl. split; [done | split; [done |]]. left. split; [done |]. right.
        by repeat split.
      * intros [= <- <-]. simpl. split; [done | split; [done |]]. left. split; [done |].
        by left.
Qed.

(** The outcome of [main] when the plan does not return. *)
Lemma main_plan_stops route53 check_mode params o tr :
  run (plan route53 params) = (o, tr) ->
  (forall pl, o <> Ret pl) ->
  exists o', run (main route53 check_mode params) = (o', tr)
    /\ match o, o' with
       | ExitJson r, ExitJson r' => r = r'
       | FailJson m, FailJson m' => m = m'
       | Raise e, Raise e' => e = e'
       | _, _ => False
       end.
Proof.
  intros Hplan Hno. unfold run, main, bind in *. rewrite Hplan.
  destruct o as [pl | r | msg | e]; [by destruct (Hno pl) | by eexists ..].
Qed.






(** The waiter polls at most [remaining + 1] times, sleeps once between
    two polls, and ends with INSYNC or with [WaiterError]. *)
Lemma waiter_loop_bound route53 change_id sleep_amount remaining k tr :
  exists o ext,
    waiter_loop route53 change_id sleep_amount remaining k tr = (o, tr ++ ext)
    /\ Forall (fun c => is_wait c = true) ext
    /\ (1 <= polls ext <= S remaining)%nat
    /\ slept ext = (Z.of_nat (polls ext) - 1) * sleep_amount
    /\ (o = Ret tt \/ o = Raise WaiterError).
Proof.
  revert k tr. induction remaining as [| remaining IH]; intros k tr; simpl;
    unfold bind, call; simpl.
  - destruct (change_insync route53 change_id k); eexists _, [CGetChange change_id];
      (split; [done |]); (split; [auto |]); cbn; (split; [lia |]); (split; [lia |]);
      auto.
  - destruct (change_insync route53 change_id k).
    + eexists _, [CGetChange change_id]. split; [done |]. split; [auto |]. cbn.
      split; [lia |]. split; [lia | auto].
    + destruct (IH (S k) ((tr ++ [CGetChange change_id]) ++ [CSleep sleep_amount]))
        as (o & ext & -> & Hext & Hpolls & Hslept & Ho).
      exists o, (CGetChange change_id :: CSleep sleep_amount :: ext).
      split; [by rewrite <- !app_assoc |]. split; [by repeat constructor |].
      change (polls (CGetChange change_id :: CSleep sleep_amount :: ext))
        with (S (polls ext)).
      change (slept (CGetChange change_id :: CSleep sleep_amount :: ext))
        with (sleep_amount + slept ext).
      split; [lia |]. split; [lia | done].
Qed.

(** A submission polls at most 60 times and sleeps at most 295 seconds; it
    returns only when the change was accepted. *)
Lemma submit_bound route53 params zone_id command rrs tr :
  exists o waits,
    submit route53 params zone_id command rrs tr
    = (o, tr ++ CChangeRecordSets zone_id command rrs :: waits)
    /\ Forall (fun c => is_wait c = true) waits
    /\ (polls waits <= 60)%nat /\ 0 <= slept waits <= 295
    /\ (o = Ret tt -> exists change_id,
          submit_change route53 zone_id command rrs = ChangeAccepted change_id)
    /\ (o = Ret tt \/ o = ExitJson unchanged \/ exists msg, o = FailJson msg).
Proof.
  unfold submit, bind, call. simpl.
  destruct (submit_change route53 zone_id command rrs) as [change_id | | code].
  - destruct (wait params).
    + unfold waiter_wait.
      destruct (waiter_config_lookup params) as (-> & -> & _).
      destruct (waiter_loop_bound route53 change_id
                  (default waiter_default_delay (Some WAIT_RETRY))
                  (Z.to_nat (default waiter_default_max_attempts None - 1))
                  O (tr ++ [CChangeRecordSets zone_id command rrs]))
        as (o & ext & -> & Hext & Hpolls & Hslept & Ho).
      change (Z.to_nat (default waiter_default_max_attempts None - 1)) with 59%nat
        in Hpolls.
      change (default waiter_default_delay (Some WAIT_RETRY)) with 5 in Hslept.
      rewrite <- app_assoc. simpl.
      destruct Ho as [-> | ->]; eexists _, ext; (split; [done |]);
        (split; [done |]); (split; [lia |]); (split; [lia |]); split; eauto.
    + exists (Ret tt), []. split; [done |]. split; [done |]. cbn.
      split; [lia |]. split; [lia |]. eauto.
  - exists (ExitJson unchanged), []. split; [done |]. split; [done |]. cbn.
    split; [lia |]. split; [lia |]. split; [done | auto].
  - eexists _, []. split; [done |]. split; [done |]. cbn.
    split; [lia |]. split; [lia |]. split; [done | eauto].
Qed.

(** The two ways a run goes: the plan stops it, or the plan returns and
    lines 600-639 run. *)
Lemma main_cases route53 check_mode params o tr :
  run (main route53 check_mode params) = (o, tr) ->
  (exists o0, run (plan route53 params) = (o0, tr)
     /\ (forall pl, o0 <> Ret pl)
     /\ (forall pl, o <> Ret pl)
     /\ (forall r, o = ExitJson r -> changed r = false /\ diff r = None))
  \/ (exists pl tr0, run (plan route53 params) = (Ret pl, tr0)
        /\ (check_mode = true /\ tr = tr0 /\ o = ExitJson (changed_result pl)
            \/ check_mode = false
               /\ exists waits, tr = tr0 ++ change_call pl :: waits
                  /\ Forall (fun c => is_wait c = true) waits
                  /\ (polls waits <= 60)%nat /\ 0 <= slept waits <= 295
                  /\ (o = ExitJson (changed_result pl)
                      /\ (exists change_id,
                            submit_change route53 (plan_zone_id pl) (plan_command pl)
                              (plan_record_set pl) = ChangeAccepted change_id)
                      \/ o = ExitJson unchanged
                      \/ exists msg, o = FailJson msg))).
Proof.
  intros Hmain.
  destruct (run (plan route53 params)) as [o0 tr0] eqn:Hplan.
  destruct o0 as [pl | r | msg | e].
  - right. exists pl, tr0. split; [done |].
    rewrite (main_of_plan _ _ _ _ _ Hplan) in Hmain.
    destruct check_mode.
    + left. rewrite execute_check_mode in Hmain. by injection Hmain as <- <-.
    + right. split; [done |]. unfold execute, when, bind in Hmain. simpl in Hmain.
      destruct (submit_bound route53 params (plan_zone_id pl) (plan_command pl)
                  (plan_record_set pl) tr0)
        as (o1 & waits & Hs & Hwaits & Hpolls & Hslept & Hacc & Ho1).
      rewrite Hs in Hmain. exists waits.
      destruct Ho1 as [-> | [-> | [msg ->]]]; injection Hmain as <- <-;
        (split; [done |]); (split; [done |]); (split; [done |]); (split; [done |]);
        eauto.
  - left. pose proof (plan_outcome _ _ _ _ Hplan) as Hch. simpl in Hch.
    destruct (main_plan_stops route53 check_mode params _ _ Hplan) as (o' & Hm & Ho');
      [done |].
    rewrite Hmain in Hm. injection Hm as <- <-. destruct o; try done. subst.
    exists (ExitJson r0). split; [done |]. split; [done |]. split; [done |].
    by intros r [= <-].
  - left.
    destruct (main_plan_stops route53 check_mode params _ _ Hplan) as (o' & Hm & Ho');
      [done |].
    rewrite Hmain in Hm. injection Hm as <- <-. destruct o; try done.
    exists (FailJson msg). by repeat split.
  - left.
    destruct (main_plan_stops route53 check_mode params _ _ Hplan) as (o' & Hm & Ho');
      [done |].
    rewrite Hmain in Hm. injection Hm as <- <-. destruct o; try done.
    exists (Raise e). by repeat split.
Qed.

(** X4: whenever a run reports changed=true, the after of its diff is the
    record set built from the request and its before is the located one;
    this holds for a remove as well, line 637 never selecting the empty
    dictionary (the verb is in upper case, the test in lower case). *)
Theorem reported_after_is_built route53 check_mode params r tr :
  run (main route53 check_mode params) = (ExitJson r, tr) ->
  changed r = true ->
  exists zone_id aws_record d tr0,
    run (locate route53 params) = (Ret (zone_id, aws_record), tr0)
    /\ build_resource_record_set params = inr d
    /\ diff r = Some {| before := aws_record; after := Some d |}.
Proof.
  intros Hmain Hchanged.
  destruct (main_cases _ _ _ _ _ Hmain) as [(o0 & _ & _ & _ & Hno) | (pl & tr0 & Hplan & Hexec)].
  { destruct (Hno r eq_refl) as [Hf _]. by rewrite Hf in Hchanged. }
  pose proof (plan_outcome _ _ _ _ Hplan) as (Hloc & Hbuild & Hcmd). simpl in *.
  assert (r = changed_result pl) as ->.
  { destruct Hexec as [(_ & _ & [= ->]) | (_ & waits & _ & _ & _ & _ & Ho)]; [done |].
    destruct Ho as [[[= ->] _] | [[= ->] | [msg ?]]]; done. }
  exists (plan_zone_id pl), (plan_aws_record pl), (plan_record_set pl), tr0.
  split; [done | split; [done |]]. simpl. unfold diff_after.
  destruct Hcmd as [(_ & [[_ ->] | (_ & -> & _)]) | (_ & _ & ->)]; done.
Qed.

(** X5: changed=true is reported outside check mode only when the provider
    accepted the submitted change. *)
Theorem changed_only_when_accepted route53 params r tr :
  run (main route53 false params) = (ExitJson r, tr) ->
  changed r = true ->
  exists zone_id command d change_id,
    CChangeRecordSets zone_id command d ∈ tr
    /\ build_resource_record_set params = inr d
    /\ submit_change route53 zone_id command d = ChangeAccepted change_id.
Proof.
  intros Hmain Hchanged.
  destruct (main_cases _ _ _ _ _ Hmain) as [(o0 & _ & _ & _ & Hno) | (pl & tr0 & Hplan & Hexec)].
  { destruct (Hno r eq_refl) as [Hf _]. by rewrite Hf in Hchanged. }
  pose proof (plan_outcome _ _ _ _ Hplan) as (_ & Hbuild & _). simpl in *.
  destruct Hexec as [(? & _) | (_ & waits & -> & _ & _ & _ & Ho)]; [done |].
  destruct Ho as [[_ [change_id Hacc]] | [[= ->] | [msg ?]]]; [| done | done].
  exists (plan_zone_id pl), (plan_command pl), (plan_record_set pl), change_id.
  split; [| done]. apply elem_of_app. right. by left.
Qed.


(** X7: a run in check mode makes read calls only, whatever its outcome. *)
Theorem check_mode_is_read_only route53 params o tr :
  run (main route53 true params) = (o, tr) ->
  Forall (fun c => is_read c = true) tr /\ no_submission tr.
Proof.
  intros Hmain.
  assert (Forall (fun c => is_read c = true) tr) as Hreads.
  { destruct (main_cases _ _ _ _ _ Hmain)
      as [(o0 & Hplan & _) | (pl & tr0 & Hplan & [(_ & -> & _) | (? & _)])];
      [| | done]; eapply adds_run; solve [apply adds_plan | done]. }
  split; [done | by apply reads_no_submission].
Qed.

(** X8: a get makes read calls only, in check mode or not, and never
    reports a change or a diff. *)
Theorem get_is_read_only route53 check_mode params o tr :
  state params = get ->
  run (main route53 check_mode params) = (o, tr) ->
  Forall (fun c => is_read c = true) tr
  /\ (forall r, o = ExitJson r -> changed r = false /\ diff r = None).
Proof.
  intros Hstate Hmain.
  assert (command_in params = "get") as Hcmd by (unfold command_in; by rewrite Hstate).
  destruct (main_cases _ _ _ _ _ Hmain)
    as [(o0 & Hplan & _ & _ & Hno) | (pl & tr0 & Hplan & _)].
  - split; [eapply adds_run; [apply adds_plan | done] | done].
  - pose proof (plan_outcome _ _ _ _ Hplan) as (_ & _ & Hc).
    rewrite Hcmd in Hc. by destruct Hc as [[? _] | [? _]].
Qed.

(** ** The wait and the provider's answers *)


(** The waiter returns at the first poll that reports INSYNC, when that
    poll is within its attempts. *)
Lemma waiter_loop_insync route53 change_id sleep_amount remaining k n tr :
  (forall j, (j < n)%nat -> change_insync route53 change_id (k + j) = false) ->
  change_insync route53 change_id (k + n) = true ->
  (n <= remaining)%nat ->
  waiter_loop route53 change_id sleep_amount remaining k tr
  = (Ret tt, tr ++ sync_calls change_id sleep_amount n).
Proof.
  revert remaining k tr. induction n as [| n IH]; intros remaining k tr Hbefore Hat Hle.
  - rewrite Nat.add_0_r in Hat.
    destruct remaining; simpl; unfold bind, call; simpl; by rewrite Hat.
  - destruct remaining as [| remaining]; [lia |]. simpl. unfold bind, call. simpl.
    assert (change_insync route53 change_id k = false) as ->.
    { rewrite <- (Nat.add_0_r k). apply Hbefore. lia. }
    rewrite (IH remaining (S k)); [| | | lia].
    + unfold sync_calls. simpl. by rewrite <- !app_assoc.
    + intros j Hj. replace (S k + j)%nat with (k + S j)%nat by lia. apply Hbefore. lia.
    + by replace (S k + n)%nat with (k + S n)%nat by lia.
Qed.

Lemma sync_calls_S change_id sleep_amount n :
  sync_calls change_id sleep_amount (S n)
  = CGetChange change_id :: CSleep sleep_amount :: sync_calls change_id sleep_amount n.
Proof. reflexivity. Qed.

Lemma polls_sync_calls change_id sleep_amount n :
  polls (sync_calls change_id sleep_amount n) = S n
  /\ slept (sync_calls change_id sleep_amount n) = Z.of_nat n * sleep_amount.
Proof.
  induction n as [| n [IHp IHs]]; [done |].
  rewrite sync_calls_S, Nat2Z.inj_succ.
  change (polls (CGetChange change_id :: CSleep sleep_amount
                 :: sync_calls change_id sleep_amount n))
    with (S (polls (sync_calls change_id sleep_amount n))).
  change (slept (CGetChange change_id :: CSleep sleep_amount
                 :: sync_calls change_id sleep_amount n))
    with (sleep_amount + slept (sync_calls change_id sleep_amount n)).
  rewrite IHp, IHs. split; lia.
Qed.

(** X10: with wait requested and the change accepted, a provider that
    first reports INSYNC at poll number n (from 0), n below 60, lets the run
    report changed=true after the submission, n + 1 polls and n sleeps of 5
    seconds. *)
Theorem wait_returns_at_first_insync route53 params pl change_id n tr :
  run (plan route53 params) = (Ret pl, tr) ->
  wait params = true ->
  submit_change route53 (plan_zone_id pl) (plan_command pl) (plan_record_set pl)
  = ChangeAccepted change_id ->
  (forall j, (j < n)%nat -> change_insync route53 change_id j = false) ->
  change_insync route53 change_id n = true ->
  (n < 60)%nat ->
  run (main route53 false params)
  = (ExitJson (changed_result pl),
     tr ++ change_call pl :: sync_calls change_id WAIT_RETRY n)
  /\ polls (sync_calls change_id WAIT_RETRY n) = S n
  /\ slept (sync_calls change_id WAIT_RETRY n) = Z.of_nat n * 5.
Proof.
  intros Hplan Hwait Hacc Hbefore Hat Hn.
  split; [| apply polls_sync_calls].
  rewrite (main_of_plan _ _ _ _ _ Hplan).
  unfold execute, when, bind, submit, call. simpl. unfold bind. simpl.
  rewrite Hacc, Hwait. unfold waiter_wait.
  destruct (waiter_config_lookup params) as (-> & -> & _).
  rewrite (waiter_loop_insync _ _ _ _ O n); [| done | done |].
  - by rewrite <- app_assoc.
  - change (Z.to_nat (default waiter_default_max_attempts None - 1)) with 59%nat. lia.
Qed.

(** X11: when the provider answers the change with the error saying that
    the record set already exists, the run exits with changed=false (line
    625), after its one submission. *)
Theorem already_exists_is_unchanged route53 params pl tr :
  run (plan route53 params) = (Ret pl, tr) ->
  submit_change route53 (plan_zone_id pl) (plan_command pl) (plan_record_set pl)
  = ChangeAlreadyExists ->
  run (main route53 false params) = (ExitJson unchanged, tr ++ [change_call pl]).
Proof.
  intros Hplan Hans. rewrite (main_of_plan _ _ _ _ _ Hplan).
  unfold execute, when, bind, submit, call. simpl. unfold bind. simpl.
  by rewrite Hans.
Qed.


(** ** The parameter checks and the builder's exceptions *)

Lemma main_check_fails route53 check_mode params msg :
  run (check_params params) = (FailJson msg, []) ->
  run (main route53 check_mode params) = (FailJson msg, []).
Proof.
  intros Hcheck. unfold run, main, plan, locate in *.
  by apply bind_fail, bind_fail, bind_fail.
Qed.

(** X13: an apply or a remove of an alias whose value list does not hold
    exactly one value fails before any call is made on the provider. *)
Theorem alias_needs_one_value route53 check_mode params :
  state params <> get ->
  flag (alias params) = true ->
  length (value_in params) <> 1%nat ->
  run (main route53 check_mode params)
  = (FailJson "parameter 'value' must contain a single dns name for alias records", []).
Proof.
  intros Hstate Halias Hlen. apply main_check_fails.
  unfold run, check_params, when, bind, command_in. rewrite Halias.
  assert ((length (value_in params) =? 1)%nat = false) as ->
    by (by apply Nat.eqb_neq).
  by destruct (state params).
Qed.

(** X14: an apply or a remove that names an identifier but none of weight,
    region and failover fails before any call is made on the provider. *)
Theorem identifier_needs_routing_policy route53 check_mode params i :
  state params <> get ->
  flag (alias params) = false \/ length (value_in params) = 1%nat ->
  identifier params = Some i ->
  weight params = None -> region params = None -> failover params = None ->
  run (main route53 check_mode params)
  = (FailJson "You have specified identifier which makes sense only if you specify one of: weight, region or failover.", []).
Proof.
  intros Hstate Halias Hid Hw Hr Hf. apply main_check_fails.
  unfold run, check_params, when, bind, command_in. rewrite Hid, Hw, Hr, Hf.
  assert (flag (alias params) && negb (length (value_in params) =? 1)%nat = false)
    as ->.
  { destruct Halias as [-> | ->]; [done | apply andb_false_r]. }
  by destruct (state params).
Qed.

(** The run when the builder raises: the exception ends it after the
    lookup. *)
Lemma main_build_raises route53 check_mode params zone_id aws_record tr e :
  run (locate route53 params) = (Ret (zone_id, aws_record), tr) ->
  build_resource_record_set params = inl e ->
  run (main route53 check_mode params) = (Raise e, tr).
Proof.
  intros Hloc Hbuild. unfold run, main. apply bind_raise.
  unfold plan. unfold run in Hloc. rewrite (bind_ret _ _ _ _ _ Hloc). simpl.
  by rewrite Hbuild.
Qed.

(** X15: a get is not checked for the single alias value, so a get with
    alias set and no value ends in an uncaught IndexError (line 565) once
    the lookup is done. *)
Theorem get_alias_without_value_raises route53 check_mode params zone_id
    aws_record tr :
  state params = get ->
  flag (alias params) = true ->
  value_in params = [] ->
  run (locate route53 params) = (Ret (zone_id, aws_record), tr) ->
  run (main route53 check_mode params) = (Raise IndexError, tr).
Proof.
  intros _ Halias Hvalue Hloc. apply (main_build_raises _ _ _ _ _ _ _ Hloc).
  unfold build_resource_record_set. by rewrite Halias, Hvalue.
Qed.

(** X16: a request of type CAA with alias set and a value ends in an
    uncaught KeyError (line 575 reads the key that line 569 deleted) once
    the lookup is done, whatever the state, and nothing is submitted. *)
Theorem alias_caa_run_raises route53 check_mode params zone_id aws_record tr :
  flag (alias params) = true ->
  type params = "CAA" ->
  value_in params <> [] ->
  run (locate route53 params) = (Ret (zone_id, aws_record), tr) ->
  run (main route53 check_mode params) = (Raise (KeyError "ResourceRecords"), tr)
  /\ no_submission tr.
Proof.
  intros Halias Hcaa Hvalue Hloc. split.
  - apply (main_build_raises _ _ _ _ _ _ _ Hloc).
    unfold build_resource_record_set. rewrite Halias, Hcaa.
    by destruct (value_in params).
  - apply reads_no_submission. eapply adds_run; [apply adds_locate | done].
Qed.

(** ** Zone resolution *)

(** X17: a zone id given with the request is used as it is: no zone is
    listed and the id is not checked, whatever zone name, visibility or VPC
    id the request also carries. *)
Theorem hosted_zone_id_is_used_as_is route53 params id :
  hosted_zone_id params = Some id ->
  id <> "" ->
  run (find_zone route53 params) = (Ret id, [])
  /\ (forall o tr, run (locate route53 params) = (o, tr) ->
        tr = [] \/ tr = [CListRecordSets id]).
Proof.
  intros Hid Hne.
  assert (opt_truthy (hosted_zone_id params) = true) as Ht
    by (rewrite Hid; by destruct id).
  assert (run (find_zone route53 params) = (Ret id, [])) as Hfind.
  { unfold run, find_zone, bind. by rewrite Ht, Hid. }
  split; [done |]. intros o tr. unfold run, locate, bind in *.
  destruct (check_params_run params []) as [-> | [msg ->]];
    [| intros [= _ <-]; by left].
  rewrite Hfind. unfold get_record, bind, call. simpl.
  destruct (record_sets route53 id); intros [= _ <-]; by right.
Qed.

(** X18: without a VPC id (none, or an empty one) the lookup by name
    returns the id of the first listed zone whose visibility and name match,
    with the prefix /hostedzone/ removed, or nothing when no listed zone
    matches; it makes the listing call only. *)
Theorem first_candidate_wins route53 zone_name want_private want_vpc_id :
  opt_truthy want_vpc_id = false ->
  run (get_zone_id_by_name route53 zone_name want_private want_vpc_id)
  = (Ret ((fun zone => strip_hostedzone (zone_Id zone))
            <$> List.find (is_candidate zone_name want_private)
                  (hosted_zones route53)),
     [CListHostedZones]).
Proof.
  intros Hvpc. unfold run. rewrite get_zone_id_by_name_run. simpl.
  generalize [CListHostedZones].
  induction (hosted_zones route53) as [| zone rest IH]; intros tr; simpl; [done |].
  fold (is_candidate zone_name want_private zone).
  destruct (is_candidate zone_name want_private zone); [by rewrite Hvpc | apply IH].
Qed.

(** With a VPC id, the candidates before the first associated one are asked
    for their detail and passed over. *)
Lemma zone_loop_first_associated route53 pre zone post zone_name want_private v
    hosted_zone vpcs tr :
  v <> "" ->
  (forall z, z ∈ pre -> is_candidate zone_name want_private z = true ->
     exists hz vs,
       hosted_zone_detail route53 (strip_hostedzone (zone_Id z)) = Some hz
       /\ VPCs hz = Some vs /\ v ∉ VPCId <$> vs) ->
  is_candidate zone_name want_private zone = true ->
  hosted_zone_detail route53 (strip_hostedzone (zone_Id zone)) = Some hosted_zone ->
  VPCs hosted_zone = Some vpcs ->
  v ∈ VPCId <$> vpcs ->
  zone_loop route53 (pre ++ zone :: post) zone_name want_private (Some v) tr
  = (Ret (Some (strip_hostedzone (zone_Id zone))),
     tr ++ detail_calls zone_name want_private pre
        ++ [CGetHostedZone (strip_hostedzone (zone_Id zone))]).
Proof.
  intros Hv Hpre Hcand Hhz Hvpcs Hin.
  assert (PyStr.truthy v = true) as Htruthy by (by destruct v).
  revert tr Hpre. induction pre as [| z pre IH]; intros tr Hpre; simpl.
  - fold (is_candidate zone_name want_private zone). rewrite Hcand, Htruthy.
    unfold bind, call. simpl. rewrite Hhz, Hvpcs.
    rewrite bool_decide_true; [done |].
    rewrite list_fmap_compose. by apply list_elem_of_fmap_2.
  - fold (is_candidate zone_name want_private z). unfold detail_calls. simpl.
    destruct (is_candidate zone_name want_private z) eqn:Hz.
    + rewrite Htruthy.
      destruct (Hpre z) as (hz & vs & Hd & Hvs & Hnotin); [by left | done |].
      unfold bind, call. simpl. rewrite Hd, Hvs.
      rewrite bool_decide_false.
      * rewrite IH by (intros z' Hz'; apply Hpre; by right).
        unfold detail_calls. by rewrite <- !app_assoc.
      * intros Hin'. apply Hnotin. rewrite list_fmap_compose in Hin'.
        apply list_elem_of_fmap in Hin' as (x & [= ->] & Hx). done.
    + apply IH. intros z' Hz'. apply Hpre. by right.
Qed.

(** X19: with a non-empty VPC id the lookup by name returns the first
    listed private zone of the name whose associated networks hold the VPC
    id; it asks for the detail of each candidate up to that one, in listing
    order, and of none after it. *)
Theorem first_associated_zone_wins route53 params pre zone post v hosted_zone vpcs :
  opt_truthy (hosted_zone_id params) = false ->
  vpc_id params = Some v ->
  v <> "" ->
  hosted_zones route53 = pre ++ zone :: post ->
  (forall z, z ∈ pre -> is_candidate (zone_in params) true z = true ->
     exists hz vs,
       hosted_zone_detail route53 (strip_hostedzone (zone_Id z)) = Some hz
       /\ VPCs hz = Some vs /\ v ∉ VPCId <$> vs) ->
  is_candidate (zone_in params) true zone = true ->
  hosted_zone_detail route53 (strip_hostedzone (zone_Id zone)) = Some hosted_zone ->
  VPCs hosted_zone = Some vpcs ->
  v ∈ VPCId <$> vpcs ->
  run (find_zone route53 params)
  = (Ret (strip_hostedzone (zone_Id zone)),
     CListHostedZones :: detail_calls (zone_in params) true pre
     ++ [CGetHostedZone (strip_hostedzone (zone_Id zone))]).
Proof.
  intros Hid Hvpc Hv Hzones Hpre Hcand Hhz Hvpcs Hin.
  unfold run, find_zone, bind. rewrite Hid, get_zone_id_by_name_run.
  unfold private_zone_in. rewrite Hvpc, Hzones.
  by rewrite (zone_loop_first_associated _ _ _ _ _ _ _ _ _ _ Hv Hpre Hcand Hhz Hvpcs Hin).
Qed.

(** X20: a zone resolved by name is a listed zone whose name is the
    normalized zone name of the request and whose visibility is the one the
    request asks for (private when a VPC id is given, the private_zone flag
    otherwise); a listed zone without the PrivateZone key counts as
    public. *)
Theorem resolved_zone_matches_request route53 params zone_id tr :
  opt_truthy (hosted_zone_id params) = false ->
  run (find_zone route53 params) = (Ret zone_id, tr) ->
  exists zone, zone ∈ hosted_zones route53
    /\ zone_Name zone = zone_in params
    /\ default false (zone_PrivateZone zone) = private_zone_in params
    /\ zone_id = strip_hostedzone (zone_Id zone).
Proof.
  intros Hid Hrun. unfold run, find_zone, bind in Hrun. rewrite Hid in Hrun.
  rewrite get_zone_id_by_name_run in Hrun.
  destruct (zone_loop route53 (hosted_zones route53) (zone_in params)
              (private_zone_in params) (vpc_id params) ([] ++ [CListHostedZones]))
    as [o' tr'] eqn:Hloop.
  destruct (zone_loop_candidates _ _ _ _ _ _ _ _ Hloop) as (Hret & _).
  destruct o' as [[z |] | | |]; simpl in Hrun; try done.
  injection Hrun as -> _.
  destruct (Hret zone_id eq_refl) as (zone & Hin & Hcand & ->).
  unfold is_candidate in Hcand. apply andb_true_iff in Hcand as [Hp Hn].
  apply bool_decide_eq_true in Hn. apply Bool.eqb_prop in Hp.
  exists zone. by repeat split.
Qed.

(** ** Names and ids *)

Lemma replace_no_slash s : no_slash s = true -> PyStr.replace "/hostedzone/" "" s = s.
Proof.
  unfold PyStr.replace. induction s as [| c s IH]; [done |].
  simpl no_slash. intros [Hc Hs]%andb_true_iff.
  cbn [PyStr.replace_from].
  assert (String.prefix "/hostedzone/" (String c s) = false) as ->.
  { cbn [String.prefix]. destruct (Ascii.ascii_dec _ c) as [<- | ?]; [| done].
    by simpl in Hc. }
  by rewrite IH.
Qed.

(** X21: the id of a listed zone, '/hostedzone/' followed by an id without
    a slash, is resolved to that id; an id without a slash is left as it
    is. *)
Theorem strip_hostedzone_id id :
  no_slash id = true ->
  strip_hostedzone ("/hostedzone/" +:+ id) = id /\ strip_hostedzone id = id.
Proof.
  intros Hid. split; [| by apply replace_no_slash].
  unfold strip_hostedzone.
  transitivity (PyStr.replace "/hostedzone/" "" id);
    [by destruct id | by apply replace_no_slash].
Qed.

Lemma lower_char_idem c : PyStr.lower_char (PyStr.lower_char c) = PyStr.lower_char c.
Proof. by destruct c as [[] [] [] [] [] [] [] []]. Qed.

Lemma lower_idem s : PyStr.lower (PyStr.lower s) = PyStr.lower s.
Proof. induction s as [| c s IH]; simpl; [done | by rewrite lower_char_idem, IH]. Qed.

Lemma lower_app_dot s : PyStr.lower (s +:+ ".") = PyStr.lower s +:+ ".".
Proof.
  induction s as [| c s IH]; [done |].
  change (String (PyStr.lower_char c) (PyStr.lower (s +:+ "."))
          = String (PyStr.lower_char c) (PyStr.lower s +:+ ".")).
  by rewrite IH.
Qed.

Lemma last1_app_dot s : PyStr.last1 (s +:+ ".") = ".".
Proof.
  induction s as [| c s IH]; [done |].
  destruct s as [| c' s]; [done |].
  change (PyStr.last1 (String c' s +:+ ".") = "."). exact IH.
Qed.

Lemma dotted_last1 s : PyStr.last1 (dotted s) = ".".
Proof.
  unfold dotted. case_bool_decide as Hlast; [apply last1_app_dot |].
  by destruct (decide (PyStr.last1 s = ".")).
Qed.

Lemma dotted_idem s : dotted (dotted s) = dotted s.
Proof.
  unfold dotted at 1. rewrite bool_decide_false; [done |].
  intros Hne. apply Hne, dotted_last1.
Qed.

Lemma lower_dotted s : PyStr.lower (dotted s) = dotted (PyStr.lower s).
Proof.
  assert (forall t, PyStr.last1 (PyStr.lower t) = "." <-> PyStr.last1 t = ".") as Hlast.
  { induction t as [| c t IH]; [done |]. simpl.
    destruct t as [| c' t]; simpl in *.
    - split; intros [= H]; f_equal; revert H;
        by destruct c as [[] [] [] [] [] [] [] []].
    - exact IH. }
  unfold dotted. destruct (decide (PyStr.last1 s = ".")) as [Heq | Hne].
  - rewrite !bool_decide_false; [done | |]; intros H; apply H; [by apply Hlast | done].
  - rewrite !bool_decide_true; [apply lower_app_dot | | done].
    intros H. by apply Hne, Hlast.
Qed.

(** X22: the record name and the zone name the run works with end with a
    dot, and normalizing is idempotent: a request that gives the normalized
    record name works with that very name. *)
Theorem names_are_normalized params :
  PyStr.last1 (record_in params) = "."
  /\ PyStr.last1 (zone_in params) = "."
  /\ record_in (with_record (record_in params) params) = record_in params.
Proof.
  unfold record_in, zone_in. split; [apply dotted_last1 |].
  split; [apply dotted_last1 |]. simpl.
  by rewrite lower_dotted, lower_idem, dotted_idem.
Qed.

(** ** More on the builder and on equality *)

Lemma locate_found route53 params zone_id aws_record tr :
  run (locate route53 params) = (Ret (zone_id, Some aws_record), tr) ->
  record_set_matches (record_in params) (type params) (identifier params) aws_record
  = true.
Proof.
  unfold run, locate, bind.
  destruct (check_params_run params []) as [-> | [msg ->]]; [| done].
  destruct (find_zone route53 params []) as [[zid | | |] tr0]; try done.
  unfold get_record, bind, call. simpl.
  destruct (record_sets route53 zid) as [sets |]; [| done].
  intros [= _ Hfind _]. by apply find_some in Hfind as [_ ?].
Qed.

(** The fields the builder copies. *)
Lemma built_fields params d :
  build_resource_record_set params = inr d ->
  Name d = record_in params /\ Type_ d = type params /\ SetIdentifier d = None
  /\ Weight d = weight params /\ Region d = region params
  /\ Failover d = failover params /\ HealthCheckId d = health_check params.
Proof.
  unfold build_resource_record_set.
  destruct (flag (alias params)).
  - destruct (value_in params) as [| v0 vs]; [done |].
    destruct (bool_decide (type params = "CAA")); simpl; [done |].
    by intros [= <-].
  - destruct (bool_decide (type params = "CAA")); simpl; by intros [= <-].
Qed.

(** X23: the built record set never holds the routing identifier of the
    request, while a record set located for a non-empty identifier always
    holds it; so an apply with an identifier that finds its record set is
    never a no-op: it plans UPSERT with overwrite and fails with the
    conflict message without, even when nothing else differs. *)
Theorem identified_apply_is_never_noop route53 check_mode params i zone_id
    aws_record d tr :
  state params = present \/ state params = create ->
  identifier params = Some i -> i <> "" ->
  build_resource_record_set params = inr d ->
  run (locate route53 params) = (Ret (zone_id, Some aws_record), tr) ->
  SetIdentifier d = None /\ SetIdentifier aws_record = Some i
  /\ aws_record <> d
  /\ (flag (overwrite params) = false ->
      run (main route53 check_mode params) = (FailJson conflict_msg, tr))
  /\ (flag (overwrite params) = true ->
      run (plan route53 params)
      = (Ret {| plan_zone_id := zone_id; plan_aws_record := Some aws_record;
                plan_record_set := d; plan_command := "UPSERT" |}, tr)).
Proof.
  intros Hstate Hid Hi Hbuild Hloc. apply command_in_apply in Hstate.
  destruct (built_fields _ _ Hbuild) as (_ & _ & Hnone & _).
  assert (SetIdentifier aws_record = Some i) as Hsome.
  { pose proof (locate_found _ _ _ _ _ Hloc) as Hm.
    apply record_set_matches_spec in Hm as (_ & _ & Hm).
    rewrite Hid in Hm. apply Hm. by destruct i. }
  assert (aws_record <> d) as Hne by (intros ->; congruence).
  pose proof (plan_differs _ _ _ _ _ _ Hstate Hbuild Hloc Hne) as Hplan.
  split; [done | split; [done | split; [done |]]]. split; intros Hov;
    rewrite Hov in Hplan; [| done].
  unfold run, main in *. by apply bind_fail.
Qed.

(** X24: for a type other than CAA, and without alias, the built record set
    holds the values of the request in the order given, so two requests
    build the same record set only if their value lists are equal, order
    included. *)
Theorem value_order_is_kept params vs1 vs2 d :
  flag (alias params) = false ->
  type params <> "CAA" ->
  build_resource_record_set (with_value vs1 params) = inr d ->
  ResourceRecords d = Some (Build_ResourceRecord <$> vs1)
  /\ (build_resource_record_set (with_value vs2 params) = inr d -> vs1 = vs2).
Proof.
  intros Halias Hcaa. unfold build_resource_record_set, scrubbed_record_set.
  rewrite !value_in_with_value. simpl. rewrite Halias.
  rewrite bool_decide_false by done. intros [= <-]. simpl. split; [done |].
  intros [= H]. by apply (inj (fmap Build_ResourceRecord)) in H.
Qed.

(** X25: for type CAA without alias, two requests that differ only in their
    values build the same record set exactly when one value list is a
    permutation of the other. *)
Theorem caa_same_build_iff_permutation params vs1 vs2 :
  flag (alias params) = false ->
  type params = "CAA" ->
  build_resource_record_set (with_value vs1 params)
  = build_resource_record_set (with_value vs2 params)
  <-> vs1 ≡ₚ vs2.
Proof.
  intros Halias Hcaa. unfold build_resource_record_set, scrubbed_record_set.
  rewrite !value_in_with_value. simpl. rewrite Halias, Hcaa. simpl.
  unfold set_ResourceRecords. simpl. split.
  - intros [= H].
    assert (Build_ResourceRecord <$> vs1 ≡ₚ Build_ResourceRecord <$> vs2) as Hperm.
    { by rewrite <- (sorted_Permutation Value (Build_ResourceRecord <$> vs1)), H,
        sorted_Permutation. }
    apply (fmap_Permutation Value) in Hperm. by rewrite !Value_of_records in Hperm.
  - intros Hperm. do 3 f_equal.
    apply sorted_of_Permutation; [apply _ |]. by rewrite Hperm.
Qed.

(** X26: sorting leaves a list that is in key order as it is, so sorting
    twice is sorting once: CAA values given in sorted order are submitted in
    the order given. *)
Theorem sorted_is_idempotent {A} (key : A -> string) (l : list A) :
  (StronglySorted (key_le key) l -> sorted key l = l)
  /\ sorted key (sorted key l) = sorted key l.
Proof.
  assert (forall l', StronglySorted (key_le key) l' -> sorted key l' = l') as Hfix.
  { induction 1 as [| x l' Hl' IH Hx]; simpl; [done |]. rewrite IH.
    destruct l' as [| y l'']; [done |]. simpl.
    apply Forall_cons in Hx as [Hxy _]. unfold key_le, String.le in Hxy.
    by destruct (String.leb (key x) (key y)). }
  split; [apply Hfix | apply Hfix, StronglySorted_sorted].
Qed.

(** ** state=get and the nameservers of the zone *)

Lemma filter_head_find {A} (f : A -> bool) (l : list A) :
  match List.filter f l with [] => None | x :: _ => Some x end = List.find f l.
Proof. induction l as [| x l IH]; simpl; [done |]. by destruct (f x). Qed.

(** [get_hosted_zone_nameservers] on a zone whose detail and listing the
    provider returns. *)
Lemma nameservers_run route53 zone_id hosted_zone sets tr :
  hosted_zone_detail route53 zone_id = Some hosted_zone ->
  record_sets route53 zone_id = Some sets ->
  get_hosted_zone_nameservers route53 zone_id tr
  = (match List.find
             (fun record => bool_decide (Name record = detail_Name hosted_zone)
                            && bool_decide (Type_ record = "NS")) sets with
     | None => Raise IndexError
     | Some ns_set =>
         match ResourceRecords ns_set with
         | None => Raise (KeyError "ResourceRecords")
         | Some nameservers_records => Ret (Value <$> nameservers_records)
         end
     end, tr ++ [CGetHostedZone zone_id; CListRecordSets zone_id]).
Proof.
  intros Hhz Hsets. unfold get_hosted_zone_nameservers, bind, call. simpl.
  rewrite Hhz. simpl. rewrite Hsets. rewrite <- filter_head_find.
  rewrite <- app_assoc. simpl.
  destruct (List.filter _ sets) as [| ns_set ?]; [done |].
  by destruct (ResourceRecords ns_set).
Qed.

(** X27: a get of a type other than NS reports changed=false, the located
    record set or its absence, and as nameservers the values of the first
    listed NS record set whose name is the name of the zone; when the
    listing holds no such record set the run ends in an uncaught IndexError
    (line 432).  The zone detail and the listing are fetched again for
    this. *)
Theorem get_reports_zone_nameservers route53 check_mode params zone_id aws_record
    d hosted_zone sets tr :
  state params = get ->
  type params <> "NS" ->
  run (locate route53 params) = (Ret (zone_id, aws_record), tr) ->
  build_resource_record_set params = inr d ->
  hosted_zone_detail route53 zone_id = Some hosted_zone ->
  record_sets route53 zone_id = Some sets ->
  run (main route53 check_mode params)
  = (match List.find
             (fun record => bool_decide (Name record = detail_Name hosted_zone)
                            && bool_decide (Type_ record = "NS")) sets with
     | None => Raise IndexError
     | Some ns_set =>
         match ResourceRecords ns_set with
         | None => Raise (KeyError "ResourceRecords")
         | Some nameservers_records =>
             ExitJson {| changed := false; result_set := Some aws_record;
                         nameservers := Some (Value <$> nameservers_records);
                         diff := None |}
         end
     end, tr ++ [CGetHostedZone zone_id; CListRecordSets zone_id]).
Proof.
  intros Hstate Hty Hloc Hbuild Hhz Hsets.
  assert (command_in params = "get") as Hcmd by (unfold command_in; by rewrite Hstate).
  pose proof (plan_of_located _ _ _ _ _ _ Hloc Hbuild Hcmd) as Hplan.
  unfold get_command in Hplan. rewrite bool_decide_false in Hplan by done.
  unfold bind in Hplan. rewrite (nameservers_run _ _ _ _ _ Hhz Hsets) in Hplan.
  unfold run, main, bind in *. rewrite Hplan.
  destruct (List.find _ sets) as [ns_set |]; [| done].
  by destruct (ResourceRecords ns_set).
Qed.

(** ** The further properties on the sample data *)

Lemma remove_absent_is_noop_witness :
  run (main r53_foo false (request absent "other.foo.com" "A" ["4.4.4.4"]))
  = (ExitJson unchanged, [CListHostedZones; CListRecordSets "ZPUBLIC"])
  /\ no_submission [CListHostedZones; CListRecordSets "ZPUBLIC"].
Proof.
  apply (remove_absent_is_noop r53_foo false
           (request absent "other.foo.com" "A" ["4.4.4.4"]) "ZPUBLIC" rs_other).
  - by left.
  - by vm_compute.
  - by vm_compute.
Defined.

Lemma apply_absent_creates_witness :
  run (main r53_foo false req_other)
  = (ExitJson {| changed := true; result_set := None; nameservers := None;
                 diff := Some {| before := None; after := Some rs_other |} |},
     [CListHostedZones; CListRecordSets "ZPUBLIC"]
     ++ [CChangeRecordSets "ZPUBLIC" "CREATE" rs_other]).
Proof.
  apply (apply_absent_creates r53_foo req_other "ZPUBLIC" rs_other "/change/C1").
  - by left.
  - by vm_compute.
  - by vm_compute.
  - reflexivity.
  - reflexivity.
Defined.

Lemma remove_present_deletes_desired_witness :
  run (main r53_foo false (request absent "new.foo.com" "A" ["1.1.1.1"]))
  = (ExitJson {| changed := true; result_set := None; nameservers := None;
                 diff := Some {| before := Some rs_new_foo;
                                 after := Some (plan_record_set plan_remove_new_foo) |} |},
     [CListHostedZones; CListRecordSets "ZPUBLIC"]
     ++ [CChangeRecordSets "ZPUBLIC" "DELETE" (plan_record_set plan_remove_new_foo)]).
Proof.
  apply (remove_present_deletes_desired r53_foo
           (request absent "new.foo.com" "A" ["1.1.1.1"]) "ZPUBLIC" rs_new_foo
           (plan_record_set plan_remove_new_foo) "/change/C1").
  - by left.
  - by vm_compute.
  - by vm_compute.
  - reflexivity.
  - reflexivity.
Defined.

Lemma reported_after_is_built_witness :
  exists zone_id aws_record d tr0,
    run (locate r53_foo (request absent "new.foo.com" "A" ["1.1.1.1"]))
    = (Ret (zone_id, aws_record), tr0)
    /\ build_resource_record_set (request absent "new.foo.com" "A" ["1.1.1.1"]) = inr d
    /\ diff (changed_result plan_remove_new_foo)
       = Some {| before := aws_record; after := Some d |}.
Proof.
  apply (reported_after_is_built r53_foo true
           (request absent "new.foo.com" "A" ["1.1.1.1"])
           (changed_result plan_remove_new_foo)
           [CListHostedZones; CListRecordSets "ZPUBLIC"]).
  - by vm_compute.
  - reflexivity.
Defined.

Lemma changed_only_when_accepted_witness :
  exists zone_id command d change_id,
    CChangeRecordSets zone_id command d
    ∈ [CListHostedZones; CListRecordSets "ZPUBLIC";
       CChangeRecordSets "ZPUBLIC" "CREATE" rs_other]
    /\ build_resource_record_set req_other = inr d
    /\ submit_change r53_foo zone_id command d = ChangeAccepted change_id.
Proof.
  apply (changed_only_when_accepted r53_foo req_other (changed_result plan_create_other)).
  - by vm_compute.
  - reflexivity.
Defined.


Lemma check_mode_is_read_only_witness :
  no_submission (run (main r53_foo true (with_overwrite req_new_foo_changed))).2.
Proof.
  apply (check_mode_is_read_only r53_foo (with_overwrite req_new_foo_changed)
           (run (main r53_foo true (with_overwrite req_new_foo_changed))).1
           (run (main r53_foo true (with_overwrite req_new_foo_changed))).2).
  apply surjective_pairing.
Defined.

Lemma get_is_read_only_witness :
  Forall (fun c => is_read c = true)
    (run (main r53_foo false (request get "new.foo.com" "A" []))).2.
Proof.
  apply (get_is_read_only r53_foo false (request get "new.foo.com" "A" [])
           (run (main r53_foo false (request get "new.foo.com" "A" []))).1
           (run (main r53_foo false (request get "new.foo.com" "A" []))).2).
  - reflexivity.
  - apply surjective_pairing.
Defined.


Lemma wait_returns_at_first_insync_witness :
  run (main (r53_answering (ChangeAccepted "/change/C1") (insync_from 2)) false
         (with_wait 10 req_other))
  = (ExitJson (changed_result plan_create_other),
     [CListHostedZones; CListRecordSets "ZPUBLIC"]
     ++ change_call plan_create_other :: sync_calls "/change/C1" WAIT_RETRY 2)
  /\ polls (sync_calls "/change/C1" WAIT_RETRY 2) = 3%nat
  /\ slept (sync_calls "/change/C1" WAIT_RETRY 2) = Z.of_nat 2 * 5.
Proof.
  apply (wait_returns_at_first_insync
           (r53_answering (ChangeAccepted "/change/C1") (insync_from 2))
           (with_wait 10 req_other) plan_create_other "/change/C1" 2).
  - by vm_compute.
  - reflexivity.
  - reflexivity.
  - intros j Hj. destruct j as [| [| j]]; [reflexivity | reflexivity | lia].
  - reflexivity.
  - lia.
Defined.

Lemma already_exists_is_unchanged_witness :
  run (main (r53_answering ChangeAlreadyExists (insync_from 0)) false req_other)
  = (ExitJson unchanged,
     [CListHostedZones; CListRecordSets "ZPUBLIC"] ++ [change_call plan_create_other]).
Proof.
  apply (already_exists_is_unchanged
           (r53_answering ChangeAlreadyExists (insync_from 0)) req_other
           plan_create_other).
  - by vm_compute.
  - reflexivity.
Defined.


Lemma alias_needs_one_value_witness :
  run (main r53_foo false
         (with_alias "Z2" (request present "a.foo.com" "A"
                             ["elb-1.example.com."; "elb-2.example.com."])))
  = (FailJson "parameter 'value' must contain a single dns name for alias records", []).
Proof.
  apply (alias_needs_one_value r53_foo false
           (with_alias "Z2" (request present "a.foo.com" "A"
                               ["elb-1.example.com."; "elb-2.example.com."]))).
  - discriminate.
  - reflexivity.
  - discriminate.
Defined.

Lemma identifier_needs_routing_policy_witness :
  run (main r53_foo false req_identifier_only)
  = (FailJson "You have specified identifier which makes sense only if you specify one of: weight, region or failover.", []).
Proof.
  apply (identifier_needs_routing_policy r53_foo false req_identifier_only "blue").
  - discriminate.
  - by left.
  - reflexivity.
  - reflexivity.
  - reflexivity.
  - reflexivity.
Defined.

Lemma get_alias_without_value_raises_witness :
  run (main r53_foo false (with_alias "Z2" (request get "a.foo.com" "A" [])))
  = (Raise IndexError, [CListHostedZones; CListRecordSets "ZPUBLIC"]).
Proof.
  apply (get_alias_without_value_raises r53_foo false
           (with_alias "Z2" (request get "a.foo.com" "A" [])) "ZPUBLIC" None).
  - reflexivity.
  - reflexivity.
  - reflexivity.
  - by vm_compute.
Defined.

Lemma alias_caa_run_raises_witness :
  run (main r53_foo false
         (with_alias "Z2" (request present "a.foo.com" "CAA" ["elb.example.com."])))
  = (Raise (KeyError "ResourceRecords"), [CListHostedZones; CListRecordSets "ZPUBLIC"])
  /\ no_submission [CListHostedZones; CListRecordSets "ZPUBLIC"].
Proof.
  apply (alias_caa_run_raises r53_foo false
           (with_alias "Z2" (request present "a.foo.com" "CAA" ["elb.example.com."]))
           "ZPUBLIC" None).
  - reflexivity.
  - reflexivity.
  - discriminate.
  - by vm_compute.
Defined.

Lemma hosted_zone_id_is_used_as_is_witness :
  run (find_zone r53_foo (with_hosted_zone_id "ZPRIVATE" req_new_foo))
  = (Ret "ZPRIVATE", []).
Proof.
  apply (hosted_zone_id_is_used_as_is r53_foo
           (with_hosted_zone_id "ZPRIVATE" req_new_foo) "ZPRIVATE").
  - reflexivity.
  - discriminate.
Defined.

Lemma first_candidate_wins_witness :
  run (get_zone_id_by_name r53_foo "foo.com." false None)
  = (Ret ((fun zone => strip_hostedzone (zone_Id zone))
            <$> List.find (is_candidate "foo.com." false) (hosted_zones r53_foo)),
     [CListHostedZones]).
Proof. apply (first_candidate_wins r53_foo "foo.com." false None). reflexivity. Defined.

Lemma first_associated_zone_wins_witness :
  run (find_zone r53_foo (with_vpc_id "vpc-1" req_new_foo))
  = (Ret (strip_hostedzone (zone_Id zone_foo_private)),
     CListHostedZones
     :: detail_calls (zone_in (with_vpc_id "vpc-1" req_new_foo)) true [zone_foo_public]
     ++ [CGetHostedZone (strip_hostedzone (zone_Id zone_foo_private))]).
Proof.
  apply (first_associated_zone_wins r53_foo (with_vpc_id "vpc-1" req_new_foo)
           [zone_foo_public] zone_foo_private [] "vpc-1"
           {| detail_Name := "foo.com."; VPCs := Some [ {| VPCId := "vpc-1" |} ] |}
           [ {| VPCId := "vpc-1" |} ]).
  - reflexivity.
  - reflexivity.
  - discriminate.
  - reflexivity.
  - intros z Hz Hcand. apply list_elem_of_singleton in Hz as ->. discriminate Hcand.
  - reflexivity.
  - by vm_compute.
  - reflexivity.
  - by left.
Defined.

Lemma resolved_zone_matches_request_witness :
  exists zone, zone ∈ hosted_zones r53_foo
    /\ zone_Name zone = zone_in req_new_foo
    /\ default false (zone_PrivateZone zone) = private_zone_in req_new_foo
    /\ "ZPUBLIC" = strip_hostedzone (zone_Id zone).
Proof.
  apply (resolved_zone_matches_request r53_foo req_new_foo "ZPUBLIC" [CListHostedZones]).
  - reflexivity.
  - by vm_compute.
Defined.

Lemma strip_hostedzone_id_witness :
  strip_hostedzone ("/hostedzone/" +:+ "ZPUBLIC") = "ZPUBLIC"
  /\ strip_hostedzone "ZPUBLIC" = "ZPUBLIC".
Proof. apply (strip_hostedzone_id "ZPUBLIC"). reflexivity. Defined.

Lemma identified_apply_is_never_noop_witness :
  SetIdentifier built_www_blue = None /\ SetIdentifier rs_www_blue = Some "blue"
  /\ rs_www_blue <> built_www_blue
  /\ run (main r53_foo false req_www_blue)
     = (FailJson conflict_msg, [CListHostedZones; CListRecordSets "ZPUBLIC"]).
Proof.
  destruct (identified_apply_is_never_noop r53_foo false req_www_blue "blue" "ZPUBLIC"
              rs_www_blue built_www_blue [CListHostedZones; CListRecordSets "ZPUBLIC"])
    as (H1 & H2 & H3 & H4 & _).
  - by left.
  - reflexivity.
  - discriminate.
  - by vm_compute.
  - by vm_compute.
  - split; [exact H1 | split; [exact H2 | split; [exact H3 | by apply H4]]].
Defined.

Lemma value_order_is_kept_witness :
  ResourceRecords (plain_record_set "new.foo.com." "A" 3600 ["1.1.1.1"; "2.2.2.2"])
  = Some (Build_ResourceRecord <$> ["1.1.1.1"; "2.2.2.2"]).
Proof.
  destruct (value_order_is_kept (request present "new.foo.com" "A" [])
              ["1.1.1.1"; "2.2.2.2"] ["2.2.2.2"; "1.1.1.1"]
              (plain_record_set "new.foo.com." "A" 3600 ["1.1.1.1"; "2.2.2.2"]))
    as [Hkept _].
  - reflexivity.
  - discriminate.
  - by vm_compute.
  - exact Hkept.
Defined.

Lemma caa_same_build_iff_permutation_witness :
  build_resource_record_set
    (with_value ["0 issuewild ';'"; "0 issue 'ca.example.net'"] req_caa_reversed)
  = build_resource_record_set
      (with_value ["0 issue 'ca.example.net'"; "0 issuewild ';'"] req_caa_reversed).
Proof.
  apply (caa_same_build_iff_permutation req_caa_reversed
           ["0 issuewild ';'"; "0 issue 'ca.example.net'"]
           ["0 issue 'ca.example.net'"; "0 issuewild ';'"]).
  - reflexivity.
  - reflexivity.
  - apply Permutation_swap.
Defined.

Lemma get_reports_zone_nameservers_witness :
  run (main r53_foo false (request get "new.foo.com" "A" []))
  = (ExitJson {| changed := false; result_set := Some (Some rs_new_foo);
                 nameservers := Some ["ns-1.awsdns-00.com."; "ns-516.awsdns-00.net."];
                 diff := None |},
     [CListHostedZones; CListRecordSets "ZPUBLIC"]
     ++ [CGetHostedZone "ZPUBLIC"; CListRecordSets "ZPUBLIC"]).
Proof.
  apply (get_reports_zone_nameservers r53_foo false (request get "new.foo.com" "A" [])
           "ZPUBLIC" (Some rs_new_foo)
           (plain_record_set "new.foo.com." "A" 3600 [])
           {| detail_Name := "foo.com."; VPCs := None |}
           [rs_apex_ns; rs_new_foo; rs_caa; rs_www_blue]).
  - reflexivity.
  - discriminate.
  - by vm_compute.
  - by vm_compute.
  - by vm_compute.
  - by vm_compute.
Defined.
